(** * guide_movie/gf_movie.py: a shallow embedding

    The script turns a series of FITS guide frames into an animated GIF.
    Its two functions, [print_progress_bar] and [make_gif] (with the
    closure [update]), are embedded below as pure functions into an error
    monad: a Python exception is a [Raise], the text written to the
    terminal is a returned string, and the plotting, FITS and clock
    libraries are parameters of a section. *)

From Stdlib Require Import ZArith Lia Floats Ascii String DecimalString Sorted.
From stdpp Require Import base option list strings gmap.
From Equations Require Import Equations.
From Equations.Prop Require Import Logic.

Local Open Scope string_scope.
Local Open Scope Z_scope.

(** ** Python values and exceptions *)

Inductive exn : Set :=
  | KeyError
  | IndexError
  | ValueError
  | TypeError
  | AttributeError
  | ZeroDivisionError
  | OverflowError
  | OSError
  | InvalidTransformError
  | OtherError (tag : string).

Inductive result (A : Type) : Type :=
  | Done (a : A)
  | Raise (e : exn).
Arguments Done {A} a.
Arguments Raise {A} e.

#[export] Instance result_ret : MRet result := fun _ a => Done a.
#[export] Instance result_bind : MBind result := fun _ _ f m =>
  match m with
  | Done a => f a
  | Raise e => Raise e
  end.

Definition exn_eqb (a b : exn) : bool :=
  match a, b with
  | KeyError, KeyError | IndexError, IndexError | ValueError, ValueError
  | TypeError, TypeError | AttributeError, AttributeError
  | ZeroDivisionError, ZeroDivisionError | OverflowError, OverflowError
  | OSError, OSError | InvalidTransformError, InvalidTransformError => true
  | OtherError s, OtherError t => String.eqb s t
  | _, _ => false
  end.

(** [try: body except E1, E2, ...: handler] *)
Definition try_except {A} (body : result A) (caught : list exn)
    (handler : result A) : result A :=
  match body with
  | Raise e => if existsb (exn_eqb e) caught then handler else Raise e
  | r => r
  end.

Definition raises {A} (r : result A) : Prop := exists e, r = Raise e.

(** ** Strings *)

Definition cr : string := String "013"%char "".
Definition nl : string := String "010"%char "".

(** [s * n]: nothing for [n <= 0]. *)
Definition str_mul (s : string) (n : Z) : string :=
  Nat.iter (Z.to_nat n) (String.app s) "".

(** [str(z)] and ['{}'.format(z)] for an int. *)
Definition str_of_int (z : Z) : string := NilZero.string_of_int (Z.to_int z).

(** [s.lstrip(c)] for a one-character set. *)
Fixpoint lstrip (c : ascii) (s : string) : string :=
  match s with
  | String a s' => if Ascii.eqb a c then lstrip c s' else s
  | EmptyString => EmptyString
  end.

(** [s.rstrip(c)] for a one-character set. *)
Fixpoint rstrip (c : ascii) (s : string) : string :=
  match s with
  | String a s' =>
      match rstrip c s' with
      | EmptyString => if Ascii.eqb a c then EmptyString else String a EmptyString
      | t => String a t
      end
  | EmptyString => EmptyString
  end.

(** [s.replace(a, b)] for one-character [a] and [b]. *)
Fixpoint replace (a b : ascii) (s : string) : string :=
  match s with
  | String x s' => String (if Ascii.eqb x a then b else x) (replace a b s')
  | EmptyString => EmptyString
  end.

(** [s.upper()] on ASCII letters. *)
Definition upper_ascii (a : ascii) : ascii :=
  let n := nat_of_ascii a in
  if (Nat.leb 97 n && Nat.leb n 122)%bool then ascii_of_nat (n - 32) else a.

Fixpoint upper (s : string) : string :=
  match s with
  | String a s' => String (upper_ascii a) (upper s')
  | EmptyString => EmptyString
  end.

Fixpoint ends_with_newline (s : string) : bool :=
  match s with
  | EmptyString => false
  | String a EmptyString => Ascii.eqb a "010"%char
  | String _ s' => ends_with_newline s'
  end.

(** ** Floats

    Python floats are IEEE binary64, as Rocq's primitive floats. An int
    becomes a float by rounding to nearest even; the counts and pixel
    sizes of this program are far inside the range where CPython would
    raise [OverflowError] instead, which is not modelled. *)

Definition float_of_int (z : Z) : float :=
  SF2Prim (binary_normalize prec emax z 0 false).

(** [a / b] where the divisor [b] is an int or [float(b)] of an int: the
    divisor is zero exactly when the int is, and Python then raises. *)
Definition truediv_by_int (a : float) (b : Z) : result float :=
  if b =? 0 then Raise ZeroDivisionError else Done (a / float_of_int b)%float.

(** [a / b] for a float divisor. *)
Definition truediv (a b : float) : result float :=
  if PrimFloat.is_zero b then Raise ZeroDivisionError else Done (a / b)%float.

(** [int(x)]: truncation towards zero. *)
Definition int_of_float (x : float) : result Z :=
  match Prim2SF x with
  | S754_nan => Raise ValueError
  | S754_infinity _ => Raise OverflowError
  | S754_zero _ => Done 0
  | S754_finite s m e =>
      let a := if 0 <=? e then Zpos m * 2 ^ e else Zpos m / 2 ^ (- e) in
      Done (if s then - a else a)
  end.

Definition round_half_even (n d : Z) : Z :=
  let q := n / d in
  match (2 * (n mod d)) ?= d with
  | Lt => q
  | Gt => q + 1
  | Eq => if Z.even q then q else q + 1
  end.

Definition pad_zeros (w : nat) (s : string) : string :=
  str_mul "0" (Z.of_nat w - Z.of_nat (String.length s)) ++ s.

(** [('{0:.' + str(decimals) + 'f}').format(x)]: the exact binary value
    of [x], rounded half-even to [decimals] digits. *)
Definition format_f (decimals : nat) (x : float) : string :=
  let p := 10 ^ Z.of_nat decimals in
  let body (neg : bool) (scaled : Z) :=
    (if neg then "-" else "") ++ str_of_int (scaled / p) ++
    match decimals with
    | O => ""
    | _ => "." ++ pad_zeros decimals (str_of_int (scaled mod p))
    end in
  match Prim2SF x with
  | S754_nan => "nan"
  | S754_infinity s => if s then "-inf" else "inf"
  | S754_zero s => body s 0
  | S754_finite s m e =>
      body s (if 0 <=? e then Zpos m * p * 2 ^ e
              else round_half_even (Zpos m * p) (2 ^ (- e)))
  end.

(** ** print_progress_bar (lines 30-63)

    [now] is the reading of [datetime.now()] on line 47 and [time_in] the
    start time, both in microseconds; the result is the text printed. *)

Definition time_left_of (total_time : float) : string :=
  if (90 <? total_time)%float then
    "| " ++ format_f 1 (total_time / 60)%float ++ " min remaining |"
  else if (5400 <? total_time)%float then
    "| " ++ format_f 1 (total_time / 60 / 60)%float ++ " hrs remaining |"
  else
    "| " ++ format_f 1 total_time ++ " sec remaining |".

Definition print_progress_bar (now : Z) (iteration total : Z)
    (prefix suffix : string) (decimals : nat) (length : Z) (fill : string)
    (time_in : option Z) : result string :=
  ratio ← truediv_by_int (float_of_int iteration) total;
  let percent := format_f decimals (float_of_int 100 * ratio)%float in
  let filled_length := length * iteration / total in
  let bar := str_mul fill filled_length ++ str_mul "-" (length - filled_length) in
  time_left ←
    match time_in with
    | Some t0 =>
        let delta_t := (float_of_int (now - t0) / 1000000)%float in
        per_unit ← truediv_by_int delta_t iteration;
        let total_time :=
          (per_unit * (float_of_int total - float_of_int iteration))%float in
        Done (time_left_of total_time)
    | None => Done " "
    end;
  let line :=
    cr ++ prefix ++ " |" ++ bar ++ "| " ++ percent ++ "%" ++ time_left ++ suffix in
  Done (line ++ cr ++ (if iteration =? total then nl else "")).

Definition default_fill : string := "█".

(** ** Sequences: Python lists and numpy arrays of frame paths *)

Definition len {A} (l : list A) : Z := Z.of_nat (length l).

(** [l[i]], negative indices counting from the end. *)
Definition getitem {A} (l : list A) (i : Z) : result A :=
  let j := if i <? 0 then i + len l else i in
  if (0 <=? j) && (j <? len l) then
    match l !! Z.to_nat j with
    | Some x => Done x
    | None => Raise IndexError
    end
  else Raise IndexError.

(** [np.insert(l, i, x)]: [x] goes before position [i]. *)
Definition np_insert {A} (l : list A) (i : Z) (x : A) : result (list A) :=
  let j := if i <? 0 then i + len l else i in
  if (0 <=? j) && (j <=? len l) then
    Done (take (Z.to_nat j) l ++ x :: drop (Z.to_nat j) l)%list
  else Raise IndexError.

(** [l[start:stop]] *)
Definition py_slice {A} (l : list A) (start stop : Z) : list A :=
  let norm i := if i <? 0 then Z.max 0 (i + len l) else Z.min i (len l) in
  take (Z.to_nat (norm stop - norm start)) (drop (Z.to_nat (norm start)) l).

(** [np.sort] on strings: ascending by code point. *)
Fixpoint sort_insert (x : string) (l : list string) : list string :=
  match l with
  | [] => [x]
  | y :: l' => if String.leb x y then x :: l else y :: sort_insert x l'
  end.

Definition np_sort (l : list string) : list string := foldr sort_insert [] l.

(** [len(np.unique(l))] *)
Definition count_unique (l : list string) : Z := len (remove_dups l).

(** ** The sequence padder (make_gif, lines 82-93) *)

Definition start_frames : Z := 5.

(** [a // b] on ints. *)
Definition floordiv (a b : Z) : result Z :=
  if b =? 0 then Raise ZeroDivisionError else Done (a / b).

(** The loop of lines 89-92; it returns the array and [i]. It ends because
    [c] rises towards [copies]. *)
Equations? pad_inner (copies : Z) (fits_files : list string) (i c : Z)
    : result (list string * Z) by wf (Z.to_nat (copies - c)) lt :=
  pad_inner copies fits_files i c with decide (c < copies) := {
    | left _ =>
        x ← getitem fits_files i;
        fits_files' ← np_insert fits_files i x;
        pad_inner copies fits_files' (i + 1) (c + 1)
    | right _ => Done (fits_files, i) }.
Proof. lia. Defined.

Lemma pad_inner_advances copies fits_files i c fits_files' i' :
  pad_inner copies fits_files i c = Done (fits_files', i') -> i <= i'.
Proof.
  funelim (pad_inner copies fits_files i c).
  - destruct (getitem fits_files i) as [x|]; [|discriminate]. cbn.
    destruct (np_insert fits_files i x) as [l2|]; [|discriminate]. cbn.
    intros E. apply (H x l2) in E. lia.
  - intros [= <- <-]. lia.
Qed.

(** The loop of lines 87-93. It ends because the inner loop never lowers
    [i], which rises towards [start_frames * copies]. *)
Equations? pad_outer (copies : Z) (fits_files : list string) (i : Z)
    : result (list string) by wf (Z.to_nat (start_frames * copies - i)) lt :=
  pad_outer copies fits_files i with decide (i < start_frames * copies) := {
    | left _ with inspect (pad_inner copies fits_files i 1) := {
        | exist _ (Done (fits_files', i')) E => pad_outer copies fits_files' (i' + 1)
        | exist _ (Raise e) _ => Raise e }
    | right _ => Done fits_files }.
Proof. apply pad_inner_advances in E. lia. Defined.

(** [init_fr] is [None] for Python's [None]. *)
Definition truthy (init_fr : option Z) : bool :=
  match init_fr with
  | Some z => negb (z =? 0)
  | None => false
  end.

(** Lines 82-93: the multiplier [copies] and the padded [fits_files]. The
    intervals are ints, as the defaults of [make_gif]; the command line
    passes floats, on which [//] floors in the same way. *)
Definition pad_frames (fits_files : list string) (fr : Z) (init_fr : option Z)
    : result (Z * list string) :=
  match init_fr with
  | Some ifr =>
      if negb (ifr =? 0) && (fr <? ifr) && (start_frames <? len fits_files) then
        copies ← floordiv ifr fr;
        fits_files' ← pad_outer copies fits_files 0;
        Done (copies, fits_files')
      else Done (1, fits_files)
  | None => Done (1, fits_files)
  end.

(** The padded sequence in the words of the specification: each of the
    first five frames [k] times in a row, then the others once. *)
Definition padded_spec (k : nat) (l : list string) : list string :=
  (flat_map (replicate k) (take 5 l) ++ drop 5 l)%list.

(** The total shown in a title (line 192). *)
Definition title_total (fits_files : list string) (copies : Z) : Z :=
  len fits_files - (copies - 1) * start_frames.

(** ** FITS files as the script reads them *)

Inductive hval : Type :=
  | VStr (s : string)
  | VInt (z : Z)
  | VFloat (f : float).

Abbreviation header := (gmap string hval).

(** A 2-D image: rows of pixels, [data.shape = (rows, columns)]. *)
Definition image : Type := list (list Z).

Record hdu : Type := HDU {
  hdu_name : string;
  hdu_header : header;
  hdu_data : image
}.

(** [header[key]] *)
Definition header_get (h : header) (key : string) : result hval :=
  match h !! key with
  | Some v => Done v
  | None => Raise KeyError
  end.

(** [hdul[name]]: the first extension of that name. *)
Definition hdul_by_name (hdul : list hdu) (name : string) : result hdu :=
  match find (fun h => String.eqb (hdu_name h) name) hdul with
  | Some h => Done h
  | None => Raise KeyError
  end.

(** Lines 137-146. *)
Definition select_hdu (hdul : list hdu) : result (header * image) :=
  try_except
    (h ← hdul_by_name hdul "SCI"; Done (hdu_header h, hdu_data h))
    [KeyError]
    (try_except
       (h ← hdul_by_name hdul "COMPRESSED_IMAGE"; Done (hdu_header h, hdu_data h))
       [KeyError]
       (h ← getitem hdul 0; Done (hdu_header h, hdu_data h))).

(** Lines 97-103. *)
Definition select_header (hdul : list hdu) : result header :=
  try_except
    (h ← hdul_by_name hdul "SCI"; Done (hdu_header h))
    [KeyError]
    (try_except
       (h ← hdul_by_name hdul "COMPRESSED_IMAGE"; Done (hdu_header h))
       [KeyError]
       (h ← getitem hdul 0; Done (hdu_header h))).

(** The three sources in the words of the specification. *)
Definition first_source (hdul : list hdu) : option hdu :=
  match find (fun h => String.eqb (hdu_name h) "SCI") hdul with
  | Some h => Some h
  | None =>
      match find (fun h => String.eqb (hdu_name h) "COMPRESSED_IMAGE") hdul with
      | Some h => Some h
      | None => head hdul
      end
  end.

(** ** Center crop (update, lines 147-153) *)

Definition shape (data : image) : Z * Z :=
  (len data, match data with row :: _ => len row | [] => 0 end).

(** [int(dim/2.5)] *)
Definition crop_frac (dim : Z) : result Z :=
  int_of_float (float_of_int dim / 2.5)%float.

(** [data[x_frac:-x_frac, y_frac:-y_frac]]: axis 0 (rows), then axis 1. *)
Definition crop_data (data : image) (x_frac y_frac : Z) : image :=
  map (fun row => py_slice row y_frac (- y_frac)) (py_slice data x_frac (- x_frac)).

(** [v - k] for a header value and an int. *)
Definition hval_sub (v : hval) (k : Z) : result hval :=
  match v with
  | VInt z => Done (VInt (z - k))
  | VFloat f => Done (VFloat (f - float_of_int k)%float)
  | VStr _ => Raise TypeError
  end.

Definition center_crop (header_n : header) (data : image)
    : result (header * image) :=
  let '(shape0, shape1) := shape data in
  x_frac ← crop_frac shape0;
  y_frac ← crop_frac shape1;
  let data := crop_data data x_frac y_frac in
  crpix1 ← header_get header_n "CRPIX1";
  crpix1' ← hval_sub crpix1 x_frac;
  let header_n := <["CRPIX1" := crpix1']> header_n in
  crpix2 ← header_get header_n "CRPIX2";
  crpix2' ← hval_sub crpix2 y_frac;
  let header_n := <["CRPIX2" := crpix2']> header_n in
  Done (header_n, data).

(** The pixel a reference position (CRPIX1, CRPIX2) names: FITS counts
    from 1, axis 1 along a row (the x of line 201), axis 2 across rows. *)
Definition pixel_at (data : image) (crpix1 crpix2 : Z) : option Z :=
  if (1 <=? crpix1) && (1 <=? crpix2) then
    row ← data !! Z.to_nat (crpix2 - 1); row !! Z.to_nat (crpix1 - 1)
  else None.

Definition reference_pixel (header_n : header) (data : image) : option Z :=
  match header_n !! "CRPIX1", header_n !! "CRPIX2" with
  | Some (VInt c1), Some (VInt c2) => pixel_at data c1 c2
  | _, _ => None
  end.

(** ** Observation date (update, lines 158-165) *)

Definition fmt_fraction : string := "%Y-%m-%dT%H:%M:%S.%f".
Definition fmt_seconds : string := "%Y-%m-%dT%H:%M:%S".

Definition read_date (strptime : hval -> string -> result Z) (header_n : header)
    : result Z :=
  date_obs ← try_except (header_get header_n "DATE-OBS") [KeyError]
                        (header_get header_n "DATE_OBS");
  try_except (strptime date_obs fmt_fraction) [ValueError]
             (strptime date_obs fmt_seconds).

(** The same in the words of the specification: the field read, the two
    formats tried in turn, and a header with no date that parses. *)
Definition date_field (header_n : header) : option hval :=
  match header_n !! "DATE-OBS" with
  | Some v => Some v
  | None => header_n !! "DATE_OBS"
  end.

Definition parse_date (strptime : hval -> string -> result Z) (v : hval) : result Z :=
  match strptime v fmt_fraction with
  | Raise ValueError => strptime v fmt_seconds
  | r => r
  end.

Definition unparseable (strptime : hval -> string -> result Z) (header_n : header)
    : Prop :=
  match date_field header_n with
  | Some v => raises (strptime v fmt_fraction) /\ raises (strptime v fmt_seconds)
  | None => True
  end.

(** ** Coordinate overlay (update, lines 171-189)

    The statements of the [try] block, in order; each is a call into
    astropy or matplotlib that either returns or raises. *)

Inductive wcs_call : Set :=
  | MakeWCS
  | GcaProjection
  | CoordsDec
  | DecMajorFormatter
  | DecTicksPosition
  | DecTicklabelPosition
  | DecTicklabel
  | CoordsRa
  | RaMajorFormatter
  | RaTicksPosition
  | RaTicklabelPosition
  | RaTicklabel
  | CoordsGrid.

Definition overlay_block : list wcs_call :=
  [MakeWCS; GcaProjection;
   CoordsDec; DecMajorFormatter; DecTicksPosition; DecTicklabelPosition; DecTicklabel;
   CoordsRa; RaMajorFormatter; RaTicksPosition; RaTicklabelPosition; RaTicklabel;
   CoordsGrid].

Definition wcs_call_eqb (a b : wcs_call) : bool :=
  match a, b with
  | MakeWCS, MakeWCS | GcaProjection, GcaProjection | CoordsDec, CoordsDec
  | DecMajorFormatter, DecMajorFormatter | DecTicksPosition, DecTicksPosition
  | DecTicklabelPosition, DecTicklabelPosition | DecTicklabel, DecTicklabel
  | CoordsRa, CoordsRa | RaMajorFormatter, RaMajorFormatter
  | RaTicksPosition, RaTicksPosition | RaTicklabelPosition, RaTicklabelPosition
  | RaTicklabel, RaTicklabel | CoordsGrid, CoordsGrid => true
  | _, _ => false
  end.

(** Runs the calls until one raises: the calls made, and the exception. *)
Fixpoint run_calls (outcome : wcs_call -> option exn) (calls made : list wcs_call)
    : list wcs_call * option exn :=
  match calls with
  | [] => (made, None)
  | c :: calls' =>
      match outcome c with
      | Some e => (made, Some e)
      | None => run_calls outcome calls' (made ++ [c])%list
      end
  end.

(** [try: ... except (InvalidTransformError, AttributeError): pass] *)
Definition overlay (outcome : wcs_call -> option exn) : result (list wcs_call) :=
  let '(made, raised) := run_calls outcome overlay_block [] in
  match raised with
  | None => Done made
  | Some e =>
      if existsb (exn_eqb e) [InvalidTransformError; AttributeError]
      then Done made else Raise e
  end.

Definition grid_attached (made : list wcs_call) : bool :=
  existsb (wcs_call_eqb CoordsGrid) made.


(** ** Paths: os.path.dirname and os.path.join (posixpath) *)

(** [p[:p.rfind('/') + 1]] *)
Fixpoint upto_last_sep (p : string) : string :=
  match p with
  | String a p' =>
      match upto_last_sep p' with
      | EmptyString => if Ascii.eqb a "/" then String a EmptyString else EmptyString
      | h => String a h
      end
  | EmptyString => EmptyString
  end.

Fixpoint all_sep (s : string) : bool :=
  match s with
  | String a s' => Ascii.eqb a "/" && all_sep s'
  | EmptyString => true
  end.

Definition dirname (p : string) : string :=
  let head := upto_last_sep p in
  if negb (String.eqb head "") && negb (all_sep head) then rstrip "/" head else head.

Definition startswith_sep (s : string) : bool :=
  match s with
  | String a _ => Ascii.eqb a "/"
  | EmptyString => false
  end.

Fixpoint endswith_sep (s : string) : bool :=
  match s with
  | EmptyString => false
  | String a EmptyString => Ascii.eqb a "/"
  | String _ s' => endswith_sep s'
  end.

(** [os.path.join(a, b)] *)
Definition path_join (a b : string) : string :=
  if startswith_sep b then b
  else if String.eqb a "" || endswith_sep a then a ++ b
  else a ++ "/" ++ b.

(** ** The renderer and the animation (make_gif, lines 66-219) *)

(** What the script calls and does not define: file access, [datetime],
    the display interval, the overlay calls and the clock. [clock k] is the
    [k]-th reading of [datetime.now()], in microseconds. *)
Record library : Type := Library {
  fits_open : string -> result (list hdu);
  strptime : hval -> string -> result Z;
  strftime : Z -> string -> string;
  zscale_limits : image -> result (float * float);
  wcs_outcome : header -> wcs_call -> option exn;
  clock : nat -> Z
}.

(** The keyword arguments of [make_gif]. *)
Record config : Type := Config {
  title : option string;
  sort : bool;
  fr : Z;
  init_fr : option Z;
  tr : bool;
  center : bool;
  progress : bool
}.

Record circle : Type := Circle {
  circle_x : hval;
  circle_y : hval;
  circle_radius : float;
  circle_color : string
}.

(** The axes [update] returns. *)
Record axes : Type := Axes {
  ax_title : string;
  ax_image : image;
  ax_limits : float * float;
  ax_overlay : list wcs_call;
  ax_artists : list circle
}.

(** [arcsec / header_n['PIXSCALE']] *)
Definition arcsec_to_pixels (arcsec : Z) (pixscale : hval) : result float :=
  match pixscale with
  | VInt z => truediv_by_int (float_of_int arcsec) z
  | VFloat f => truediv (float_of_int arcsec) f
  | VStr _ => Raise TypeError
  end.

(** Lines 201-202. *)
Definition reticle (header_n : header) : result (list circle) :=
  x5 ← header_get header_n "CRPIX1";
  y5 ← header_get header_n "CRPIX2";
  scale5 ← header_get header_n "PIXSCALE";
  r5 ← arcsec_to_pixels 5 scale5;
  x15 ← header_get header_n "CRPIX1";
  y15 ← header_get header_n "CRPIX2";
  scale15 ← header_get header_n "PIXSCALE";
  r15 ← arcsec_to_pixels 15 scale15;
  Done [Circle x5 y5 r5 "limegreen"; Circle x15 y15 r15 "lime"].

(** [s.lstrip('0')] and [s.upper()] exist on strings only. *)
Definition str_method (f : string -> string) (v : hval) : result string :=
  match v with
  | VStr s => Done (f s)
  | _ => Raise AttributeError
  end.

Definition default_title : string := "LCOGT 1 meter Telescope at SAAO South Africa".

Section Renderer.
Variable lib : library.
Variable cfg : config.

(** The variables [update] closes over. *)
Variable fits_files : list string.
Variable copies : Z.
Variable time_in : Z.

(** Lines 191-192. *)
Definition current_count (n : Z) : Z :=
  count_unique (py_slice fits_files 0 (n + 1)).

Definition frame_title (date : Z) (n : Z) : string :=
  "UT Date: " ++ strftime lib date "%x %X" ++ " (" ++ str_of_int (current_count n)
    ++ " of " ++ str_of_int (title_total fits_files copies) ++ ")".

(** [update(n)] (lines 129-208); [now] is the clock reading of its
    progress report. It returns the axes and the text printed. *)
Definition update (n : Z) (now : Z) : result (axes * string) :=
  file ← getitem fits_files n;
  hdul ← fits_open lib file;
  '(header_n, data) ← select_hdu hdul;
  '(header_n, data) ←
    (if center cfg then center_crop header_n data else Done (header_n, data));
  date ← read_date (strptime lib) header_n;
  z_interval ← zscale_limits lib data;
  made ← overlay (wcs_outcome lib header_n);
  let count := current_count n in
  artists ←
    (if (count <? 6) && negb (bool_decide (Some (fr cfg) = init_fr cfg)) && tr cfg
     then reticle header_n else Done []);
  printed ←
    (if progress cfg then
       print_progress_bar now (n + 1) (len fits_files)
         ("Creating Gif: Frame " ++ str_of_int count) "" 1 100 default_fill
         (Some time_in)
     else Done "");
  Done (Axes (frame_title date n) data z_interval made artists, printed).

(** [anim.save]: the animation drives [update] once per index, in order. *)
Fixpoint save_frames (indices : list nat) : result (list axes * string) :=
  match indices with
  | [] => Done ([], "")
  | n :: indices' =>
      '(ax, printed) ← update (Z.of_nat n) (clock lib (n + 2));
      '(rest, printed') ← save_frames indices';
      Done (ax :: rest, printed ++ printed')
  end.
End Renderer.

(** The GIF written: its path, the figure title and the frames. *)
Record gif : Type := Gif {
  gif_path : string;
  gif_suptitle : option string;
  gif_frames : list axes
}.

(** Line 216. *)
Definition gif_name (obj rn : string) : string :=
  replace "/" "_" (replace " " "_" obj) ++ "_" ++ rn ++ "_guidemovie.gif".

(** Lines 105-109. *)
Definition request_number (h : header) : result string :=
  try_except (v ← header_get h "REQNUM"; str_method (lstrip "0") v)
    [KeyError] (Done "UNKNOWN").

(** Lines 110-117. *)
Definition upper_or_blank (h : header) (key : string) : result string :=
  try_except (v ← header_get h key; str_method upper v) [KeyError] (Done " ").

(** [make_gif(frames, ...)]: the GIF and the text printed. *)
Definition make_gif (lib : library) (cfg : config) (frames : list string)
    : result (gif * string) :=
  let fits_files := if sort cfg then np_sort frames else frames in
  frame0 ← getitem frames 0;
  let path := lstrip " " (dirname frame0) in
  '(copies, fits_files) ← pad_frames fits_files (fr cfg) (init_fr cfg);
  file0 ← getitem fits_files 0;
  hdul ← fits_open lib file0;
  h ← select_header hdul;
  obj ← header_get h "OBJECT";
  rn ← request_number h;
  site ← upper_or_blank h "SITEID";
  inst ← upper_or_blank h "INSTRUME";
  let suptitle :=
    match title cfg with
    | None => Some default_title
    | Some "" => None
    | Some t => Some t
    end in
  let time_in := clock lib 0 in
  '(ax1, printed1) ← update lib cfg fits_files copies time_in 0 (clock lib 1);
  name ← str_method (fun o => gif_name o rn) obj;
  let savefile := path_join path name in
  '(frames_drawn, printed) ←
    save_frames lib cfg fits_files copies time_in (seq 0 (length fits_files));
  Done (Gif savefile suptitle frames_drawn, printed1 ++ printed).

(** ** The command line (lines 222-245) *)

(** The parsed arguments: the directory, [--fr], [--ir], [--tr] and [--C]. *)
Record arguments : Type := Args {
  arg_path : string;
  arg_fr : Z;
  arg_ir : Z;
  arg_tr : bool;
  arg_C : bool
}.

(** [s[-1]] *)
Fixpoint last_char (s : string) : result ascii :=
  match s with
  | EmptyString => Raise IndexError
  | String a EmptyString => Done a
  | String _ s' => last_char s'
  end.

(** The call of line 242: the title and the sorting keep their defaults. *)
Definition main_config (args : arguments) : config := {|
  title := None; sort := true; fr := arg_fr args; init_fr := Some (arg_ir args);
  tr := arg_tr args; center := arg_C args; progress := true
|}.

(** The script run on parsed arguments; it returns the text printed.
    [glob pattern] lists the files that match, [show] is ['{}'.format]
    on the base interval. *)
Definition main (lib : library) (glob : string -> list string) (show : Z -> string)
    (args : arguments) : result string :=
  let path := arg_path args in
  let line1 := "Base Framerate: " ++ show (arg_fr args) ++ nl in
  final ← last_char path;
  let path := if negb (Ascii.eqb final "/") then path ++ "/" else path in
  let files := np_sort (glob (path ++ "*.fits.fz")) in
  let files := if len files <? 1 then np_sort (glob (path ++ "*.fits")) else files in
  if 1 <=? len files then
    '(g, printed) ← make_gif lib (main_config args) files;
    Done (line1 ++ printed ++ "New gif created: " ++ gif_path g ++ nl)
  else Done (line1 ++ "No files found." ++ nl).

(** A configuration with the progress report switched on or off. *)
Definition with_progress (cfg : config) (on : bool) : config := {|
  title := title cfg; sort := sort cfg; fr := fr cfg; init_fr := init_fr cfg;
  tr := tr cfg; center := center cfg; progress := on
|}.

(** ** The padded sequence, place by place *)

(** The source frame shown at place [p] of a sequence padded [k] times:
    the first [5 k] places go through the first five frames, [k] places
    each, and the places after them through the other frames. *)
Definition source_index (k p : nat) : nat :=
  if (p <? 5 * k)%nat then (p / k)%nat else (p - 5 * (k - 1))%nat.

(** ** Sample inputs *)

Definition five_frames : list string :=
  ["g0.fits"; "g1.fits"; "g2.fits"; "g3.fits"; "g4.fits"].

Definition six_frames : list string := (five_frames ++ ["g5.fits"])%list.

(** Five rows of ten columns; the pixel of row [r], column [c] is [100 r + c]. *)
Definition wide_image : image :=
  map (fun r => map (fun c => 100 * r + c) (seqZ 0 10)) (seqZ 0 5).

(** Ten rows of five columns, numbered in the same way. *)
Definition tall_image : image :=
  map (fun r => map (fun c => 100 * r + c) (seqZ 0 5)) (seqZ 0 10).

(** The reference pixel is column 5 of row 3, counting from 1. *)
Definition wide_header : header := {[ "CRPIX1" := VInt 5; "CRPIX2" := VInt 3 ]}.

Definition m42_header : header :=
  {[ "OBJECT" := VStr "M42"; "REQNUM" := VStr "0042";
     "DATE-OBS" := VStr "2018-08-10T01:02:03.5";
     "CRPIX1" := VInt 5; "CRPIX2" := VInt 3; "PIXSCALE" := VFloat 0.5 ]}.

(** Every file holds the same single-extension frame, without astrometry;
    one date string parses, with the first format. *)
Definition m42_library : library := {|
  fits_open := fun _ => Done [HDU "PRIMARY" m42_header wide_image];
  strptime := fun v fmt =>
    match v with
    | VStr s =>
        if String.eqb s "2018-08-10T01:02:03.5" && String.eqb fmt fmt_fraction
        then Done 1533862923500000 else Raise ValueError
    | _ => Raise TypeError
    end;
  strftime := fun _ _ => "08/10/18 01:02:03";
  zscale_limits := fun _ => Done (0%float, 1%float);
  wcs_outcome := fun _ c =>
    match c with
    | MakeWCS => Some InvalidTransformError
    | _ => None
    end;
  clock := fun k => 1000000 * Z.of_nat k
|}.

Definition quiet : config := {|
  title := None; sort := true; fr := 100; init_fr := Some 1000;
  tr := false; center := false; progress := false
|}.

Definition tmp_seq_frames : list string :=
  ["/tmp/seq/g0.fits"; "/tmp/seq/g1.fits"; "/tmp/seq/g2.fits";
   "/tmp/seq/g3.fits"; "/tmp/seq/g4.fits"].

(** A header with neither date field. *)
Definition undated_library : library := {|
  fits_open := fun _ => Done [HDU "PRIMARY" wide_header wide_image];
  strptime := strptime m42_library;
  strftime := strftime m42_library;
  zscale_limits := zscale_limits m42_library;
  wcs_outcome := wcs_outcome m42_library;
  clock := clock m42_library
|}.

(** * Properties *)

(** ** The error monad *)

Lemma bind_done {A B} (a : A) (f : A -> result B) : (Done a ≫= f) = f a.
Proof. reflexivity. Qed.

Lemma bind_raise {A B} (e : exn) (f : A -> result B) : (Raise e ≫= f) = Raise e.
Proof. reflexivity. Qed.


Lemma bind_done_inv {A B} (m : result A) (f : A -> result B) (b : B) :
  (m ≫= f) = Done b -> exists a, m = Done a /\ f a = Done b.
Proof. destruct m as [a|]; try discriminate. intros H. exists a. auto. Qed.


(** From [H : (m ≫= f) = Done b], the value [x] of [m] with [Hx : m = Done x];
    [H] becomes [f x = Done b]. *)
Tactic Notation "bind_inv" hyp(H) "as" simple_intropattern(x) ident(Hx) :=
  apply bind_done_inv in H; destruct H as (x & Hx & H).

(** ** Sequences *)

Lemma len_app {A} (l k : list A) : len (l ++ k) = len l + len k.
Proof. unfold len. rewrite length_app. lia. Qed.

Lemma len_nonneg {A} (l : list A) : 0 <= len l.
Proof. unfold len. lia. Qed.

(** Decides the integer tests of a goal from the hypotheses. *)
Ltac z_tests :=
  repeat match goal with
  | |- context [Z.ltb ?a ?b] => destruct (Z.ltb_spec a b); try lia
  | |- context [Z.leb ?a ?b] => destruct (Z.leb_spec a b); try lia
  | |- context [Z.eqb ?a ?b] => destruct (Z.eqb_spec a b); try lia
  end.

Lemma len_cons {A} (x : A) (l : list A) : len (x :: l) = 1 + len l.
Proof. unfold len. cbn [length]. lia. Qed.

Lemma getitem_middle {A} (pre post : list A) (x : A) :
  getitem (pre ++ x :: post) (len pre) = Done x.
Proof.
  unfold getitem. rewrite len_app, len_cons.
  pose proof (len_nonneg pre). pose proof (len_nonneg post).
  z_tests. cbn [andb]. unfold len. rewrite Nat2Z.id, list_lookup_middle; reflexivity.
Qed.

Lemma np_insert_middle {A} (pre post : list A) (y : A) :
  np_insert (pre ++ post) (len pre) y = Done (pre ++ y :: post)%list.
Proof.
  unfold np_insert. rewrite len_app.
  pose proof (len_nonneg pre). pose proof (len_nonneg post).
  z_tests. cbn [andb]. unfold len. rewrite Nat2Z.id, take_app_length, drop_app_length.
  reflexivity.
Qed.


Lemma getitem_nonempty {A} (l : list A) (i : Z) (x : A) :
  getitem l i = Done x -> 0 < len l.
Proof.
  unfold getitem. pose proof (len_nonneg l).
  destruct (Z.ltb_spec i 0); z_tests; cbn [andb]; try discriminate; lia.
Qed.

Lemma getitem_0 {A} (l : list A) (x : A) : getitem l 0 = Done x -> head l = Some x.
Proof.
  destruct l as [|y l]; unfold getitem, len; cbn; [discriminate|].
  intros [= ->]. reflexivity.
Qed.

(** ** The padder *)

Lemma pad_inner_step (copies : Z) (fits_files : list string) (i c : Z) :
  pad_inner copies fits_files i c
  = if decide (c < copies) then
      x ← getitem fits_files i;
      fits_files' ← np_insert fits_files i x;
      pad_inner copies fits_files' (i + 1) (c + 1)
    else Done (fits_files, i).
Proof.
  rewrite pad_inner_equation_1. destruct (decide (c < copies)); reflexivity.
Qed.

Lemma pad_outer_step (copies : Z) (fits_files : list string) (i : Z) :
  pad_outer copies fits_files i
  = if decide (i < start_frames * copies) then
      '(fits_files', i') ← pad_inner copies fits_files i 1;
      pad_outer copies fits_files' (i' + 1)
    else Done fits_files.
Proof.
  rewrite pad_outer_equation_1.
  destruct (decide (i < start_frames * copies)) as [Hlt|Hge]; [|reflexivity].
  rewrite pad_outer_clause_1_equation_1.
  destruct (inspect (pad_inner copies fits_files i 1)) as [[[l i']|e] E].
  - rewrite pad_outer_clause_1_clause_1_equation_1, E. reflexivity.
  - rewrite pad_outer_clause_1_clause_1_equation_2, E. reflexivity.
Qed.

Lemma pad_inner_spec (k : nat) : forall copies pre x post c,
  copies - c = Z.of_nat k ->
  pad_inner copies (pre ++ x :: post) (len pre) c
  = Done ((pre ++ replicate k x ++ x :: post)%list, len pre + Z.of_nat k).
Proof.
  induction k as [|k IH]; intros copies pre x post c Hk;
    rewrite pad_inner_step.
  - destruct (decide (c < copies)); [lia|].
    cbn [replicate app]. do 2 f_equal. lia.
  - destruct (decide (c < copies)); [|lia].
    rewrite getitem_middle, bind_done, np_insert_middle, bind_done.
    replace (pre ++ x :: x :: post)%list with ((pre ++ [x]) ++ x :: post)%list
      by (rewrite <- app_assoc; reflexivity).
    replace (len pre + 1) with (len (pre ++ [x])) by (rewrite len_app; reflexivity).
    rewrite (IH copies (pre ++ [x])%list x post (c + 1)) by lia.
    rewrite len_app, <- app_assoc. cbn [replicate app]. do 2 f_equal.
    unfold len; cbn [length]; lia.
Qed.

Lemma pad_outer_spec (r : nat) : forall copies pre rest,
  1 <= copies -> len pre = (5 - Z.of_nat r) * copies ->
  (r <= length rest)%nat ->
  pad_outer copies (pre ++ rest) (len pre)
  = Done (pre ++ flat_map (replicate (Z.to_nat copies)) (take r rest) ++ drop r rest)%list.
Proof.
  induction r as [|r IH]; intros copies pre rest Hc Hpre Hr;
    rewrite pad_outer_step; unfold start_frames.
  - destruct (decide (len pre < 5 * copies)); [lia|]. reflexivity.
  - destruct (decide (len pre < 5 * copies)); [|nia].
    destruct rest as [|x rest]; [cbn in Hr; lia|].
    rewrite (pad_inner_spec (Z.to_nat (copies - 1))) by lia.
    rewrite bind_done. cbv beta iota.
    assert (Hrep : (replicate (Z.to_nat (copies - 1)) x ++ x :: rest
                    = replicate (Z.to_nat copies) x ++ rest)%list).
    { replace (Z.to_nat copies) with (S (Z.to_nat (copies - 1))) by lia.
      rewrite replicate_S_end, <- app_assoc. reflexivity. }
    rewrite Hrep, app_assoc.
    replace (len pre + Z.of_nat (Z.to_nat (copies - 1)) + 1)
      with (len (pre ++ replicate (Z.to_nat copies) x)).
    2:{ rewrite len_app. unfold len at 2. rewrite length_replicate. lia. }
    rewrite IH.
    + cbn [take drop flat_map]. rewrite <- !app_assoc. reflexivity.
    + exact Hc.
    + rewrite len_app. unfold len at 2. rewrite length_replicate. lia.
    + cbn in Hr. lia.
Qed.

Lemma pad_outer_nonpositive (copies : Z) (l : list string) :
  copies <= 0 -> pad_outer copies l 0 = Done l.
Proof.
  intros H. rewrite pad_outer_step. unfold start_frames.
  destruct (decide (0 < 5 * copies)); [lia|]. reflexivity.
Qed.

(** With the guard of line 84 true and a positive multiplier, the loops
    produce the padded sequence of the specification. *)
Lemma pad_frames_padded (l : list string) (fr ifr : Z) :
  ifr <> 0 -> fr < ifr -> 5 < len l -> fr <> 0 -> 1 <= ifr / fr ->
  pad_frames l fr (Some ifr)
  = Done (ifr / fr, padded_spec (Z.to_nat (ifr / fr)) l).
Proof.
  intros Hn Hlt Hlen Hfr Hc. unfold pad_frames, start_frames, floordiv.
  destruct (Z.eqb_spec ifr 0) as [?|_]; [lia|].
  destruct (Z.ltb_spec fr ifr) as [_|?]; [|lia].
  destruct (Z.ltb_spec 5 (len l)) as [_|?]; [|lia].
  destruct (Z.eqb_spec fr 0) as [?|_]; [lia|].
  cbn [negb andb]. rewrite bind_done.
  pose proof (pad_outer_spec 5 (ifr / fr) [] l Hc) as H.
  cbn [app] in H. change (len (@nil string)) with 0 in H.
  rewrite H; [reflexivity|lia|unfold len in Hlen; lia].
Qed.

Lemma floordiv_negative (a b : Z) : b < 0 -> b < a -> a / b <= 0.
Proof.
  intros Hb Hab. pose proof (Z.div_mod a b ltac:(lia)) as Hdm.
  pose proof (Z.mod_neg_bound a b Hb) as Hm. nia.
Qed.

(** Every outcome of lines 82-93. *)
Lemma pad_frames_cases (l : list string) (fr : Z) (init_fr : option Z) :
  fr = 0 /\ pad_frames l fr init_fr = Raise ZeroDivisionError
  \/ (exists copies, pad_frames l fr init_fr = Done (copies, l)
        /\ (copies = 1 \/ copies <= 0 /\ fr < 0))
  \/ (exists copies, 1 <= copies /\ 0 < fr /\ 5 < len l
        /\ pad_frames l fr init_fr = Done (copies, padded_spec (Z.to_nat copies) l)).
Proof.
  destruct init_fr as [ifr|]; [|right; left; exists 1; auto].
  destruct (negb (ifr =? 0) && (fr <? ifr) && (start_frames <? len l)) eqn:Hg.
  2:{ right; left; exists 1. unfold pad_frames. rewrite Hg. auto. }
  apply andb_prop in Hg as [Hg Hlen]. apply andb_prop in Hg as [Hn Hlt].
  apply negb_true_iff, Z.eqb_neq in Hn. apply Z.ltb_lt in Hlt, Hlen.
  unfold start_frames in Hlen.
  destruct (Z.lt_trichotomy fr 0) as [Hneg|[->|Hpos]].
  - right; left. exists (ifr / fr). split; [|right; split; [|lia]].
    + unfold pad_frames, floordiv, start_frames.
      destruct (Z.eqb_spec ifr 0) as [?|_]; [lia|].
      destruct (Z.ltb_spec fr ifr) as [_|?]; [|lia].
      destruct (Z.ltb_spec 5 (len l)) as [_|?]; [|lia].
      destruct (Z.eqb_spec fr 0) as [?|_]; [lia|].
      cbn [negb andb]. rewrite bind_done, pad_outer_nonpositive; [reflexivity|].
      apply floordiv_negative; assumption.
    + apply floordiv_negative; assumption.
  - left. split; [reflexivity|]. unfold pad_frames, floordiv, start_frames.
    destruct (Z.eqb_spec ifr 0) as [?|_]; [lia|].
    destruct (Z.ltb_spec 0 ifr) as [_|?]; [|lia].
    destruct (Z.ltb_spec 5 (len l)) as [_|?]; [|lia]. reflexivity.
  - right; right. exists (ifr / fr).
    assert (1 <= ifr / fr) by (apply Z.div_le_lower_bound; lia).
    repeat split; try assumption. apply pad_frames_padded; lia.
Qed.

Lemma padded_spec_length (k : nat) (l : list string) :
  (5 <= length l)%nat -> length (padded_spec (S k) l) = (length l + 5 * k)%nat.
Proof.
  intros H. do 5 (destruct l as [|? l]; [cbn in H; lia|]).
  unfold padded_spec. cbn [take drop flat_map]. rewrite take_0, drop_0.
  rewrite !length_app, !length_replicate. cbn [length flat_map]. lia.
Qed.

(** C1, amended: for intro interval 1000, base interval 100 and every frame
    list of more than five frames, the padder computes the multiplier 10
    and returns the padded list in which each of the first five frames
    fills ten consecutive places (frame [j] the places [10 j .. 10 j + 9]),
    every later frame appears once (frame [j] at place [j + 45]) and the
    order is kept. *)
Theorem pad_frames_intro_1000_100 (l : list string) :
  (5 < length l)%nat ->
  pad_frames l 100 (Some 1000) = Done (10, padded_spec 10 l)
  /\ length (padded_spec 10 l) = (length l + 45)%nat
  /\ (forall j m, (j < 5)%nat -> (m < 10)%nat ->
        padded_spec 10 l !! (10 * j + m)%nat = l !! j)
  /\ (forall j, (5 <= j)%nat -> padded_spec 10 l !! (j + 45)%nat = l !! j).
Proof.
  intros Hlen. split; [|split; [|split]].
  - rewrite (pad_frames_padded l 100 1000); [reflexivity|lia|lia| |lia|].
    + unfold len. lia.
    + change (1000 / 100) with 10. lia.
  - rewrite padded_spec_length by lia. lia.
  - intros j m Hj Hm.
    do 5 (destruct l as [|? l]; [cbn in Hlen; lia|]).
    do 5 (destruct j as [|j]; [do 10 (destruct m as [|m]; [reflexivity|]); lia|]).
    lia.
  - intros j Hj.
    do 5 (destruct l as [|? l]; [cbn in Hlen; lia|]).
    do 5 (destruct j as [|j]; [lia|]).
    replace (S (S (S (S (S j)))) + 45)%nat with (50 + j)%nat by lia.
    reflexivity.
Qed.

Lemma pad_frames_intro_1000_100_witness :
  pad_frames six_frames 100 (Some 1000) = Done (10, padded_spec 10 six_frames)
  /\ padded_spec 10 six_frames !! 49%nat = Some "g4.fits"
  /\ padded_spec 10 six_frames !! 50%nat = Some "g5.fits".
Proof.
  destruct (pad_frames_intro_1000_100 six_frames) as (H1 & _ & H2 & H3).
  - cbn. lia.
  - split; [exact H1|]. split.
    + apply (H2 4%nat 9%nat); lia.
    + apply (H3 5%nat); lia.
Defined.

(** C1 as stated fails for exactly five frames: line 84 asks for more than
    [start_frames] frames, so the list stays as it is and [copies] is 1. *)
Lemma pad_frames_five_frames_unchanged :
  (5 <= length five_frames)%nat
  /\ pad_frames five_frames 100 (Some 1000) = Done (1, five_frames)
  /\ pad_frames five_frames 100 (Some 1000) <> Done (10, padded_spec 10 five_frames).
Proof.
  split; [cbn; lia|]. split; [reflexivity|]. discriminate.
Qed.

(** C2: when the intro interval is unset or zero, or not above the base
    interval, or the list has fewer than five frames, the padding step
    returns the frame list unchanged (with multiplier 1). *)
Theorem pad_frames_noop (l : list string) (fr : Z) (init_fr : option Z) :
  truthy init_fr = false
  \/ (exists ifr, init_fr = Some ifr /\ ifr <= fr)
  \/ (length l < 5)%nat ->
  pad_frames l fr init_fr = Done (1, l).
Proof.
  intros H. unfold pad_frames, start_frames.
  destruct init_fr as [ifr|]; [|reflexivity].
  assert (len l = Z.of_nat (length l)) as Hl by reflexivity.
  destruct H as [H|[(z & [= <-] & H)|H]].
  - cbn in H. rewrite H. reflexivity.
  - z_tests; rewrite ?andb_false_r; reflexivity.
  - z_tests; rewrite ?andb_false_r; reflexivity.
Qed.

Lemma pad_frames_noop_witness :
  pad_frames six_frames 100 None = Done (1, six_frames)
  /\ pad_frames six_frames 100 (Some 100) = Done (1, six_frames)
  /\ pad_frames (take 4 six_frames) 100 (Some 1000) = Done (1, take 4 six_frames).
Proof.
  split; [|split].
  - apply (pad_frames_noop six_frames 100 None). left. reflexivity.
  - apply (pad_frames_noop six_frames 100 (Some 100)). right; left.
    exists 100. split; [reflexivity|lia].
  - apply (pad_frames_noop (take 4 six_frames) 100 (Some 1000)). right; right.
    cbn. lia.
Defined.

Lemma np_sort_length (l : list string) : length (np_sort l) = length l.
Proof.
  assert (Hins : forall x k, length (sort_insert x k) = S (length k)).
  { intros x k. induction k as [|y k IH]; [reflexivity|].
    cbn [sort_insert]. destruct (String.leb x y); cbn [length]; [reflexivity|].
    rewrite IH. reflexivity. }
  induction l as [|x l IH]; [reflexivity|].
  cbn [np_sort foldr]. rewrite Hins. fold (np_sort l). rewrite IH. reflexivity.
Qed.

Lemma count_unique_NoDup (l : list string) : NoDup l -> count_unique l = len l.
Proof.
  intros H. unfold count_unique. f_equal.
  induction H as [|x l Hx _ IH]; [reflexivity|].
  cbn [remove_dups]. destruct (decide_rel elem_of x l); [contradiction|].
  rewrite IH. reflexivity.
Qed.

(** C3, amended: for every frame list, sorted or not, and every positive
    base interval, the padder returns, its multiplier is at least 1, and
    the total shown in the titles, [len(fits_files) - (copies - 1) * 5],
    is the length of the original list, which is the number of distinct
    source frames when no path occurs twice. *)
Theorem title_total_is_frame_count (lib : library) (frames : list string)
    (sorted : bool) (fr : Z) (init_fr : option Z) :
  0 < fr ->
  exists copies padded,
    pad_frames (if sorted then np_sort frames else frames) fr init_fr
      = Done (copies, padded)
    /\ 1 <= copies
    /\ title_total padded copies = len frames
    /\ (NoDup frames -> title_total padded copies = count_unique frames)
    /\ forall date n,
         frame_title lib padded copies date n
         = "UT Date: " ++ strftime lib date "%x %X" ++ " ("
             ++ str_of_int (current_count padded n)
             ++ " of " ++ str_of_int (len frames) ++ ")".
Proof.
  intros Hfr.
  set (l := if sorted then np_sort frames else frames).
  assert (Hl : len l = len frames).
  { unfold l, len. destruct sorted; [rewrite np_sort_length|]; reflexivity. }
  assert (exists copies padded,
    pad_frames l fr init_fr = Done (copies, padded) /\ 1 <= copies
    /\ title_total padded copies = len frames) as (copies & padded & Hp & Hc & Ht).
  { destruct (pad_frames_cases l fr init_fr) as [[? _]|[(c & H & Hc)|(c & Hc & _ & Hlen & H)]].
    - lia.
    - exists c, l. destruct Hc as [->|[_ ?]]; [|lia].
      repeat split; [assumption|lia|]. unfold title_total. lia.
    - exists c, (padded_spec (Z.to_nat c) l). repeat split; [assumption..|].
      unfold title_total, start_frames, len.
      replace (Z.to_nat c) with (S (Z.to_nat (c - 1))) by lia.
      rewrite padded_spec_length by (unfold len in Hlen; lia).
      unfold len in Hl. lia. }
  exists copies, padded. split; [exact Hp|]. split; [exact Hc|].
  split; [exact Ht|]. split.
  - intros Hnd. rewrite Ht, count_unique_NoDup by exact Hnd. reflexivity.
  - intros date n. unfold frame_title. rewrite Ht. reflexivity.
Qed.

Lemma title_total_is_frame_count_witness :
  exists copies padded,
    pad_frames (np_sort six_frames) 100 (Some 1000) = Done (copies, padded)
    /\ title_total padded copies = 6.
Proof.
  destruct (title_total_is_frame_count m42_library six_frames true 100 (Some 1000))
    as (copies & padded & Hp & _ & Ht & _ & _); [lia|].
  exists copies, padded. split; [exact Hp|exact Ht].
Defined.

(** C3 as stated fails for a negative base interval: line 85 then gives a
    multiplier below 1, nothing is inserted, and the title's total is 61
    for six frames. (A path that occurs twice is counted twice in the
    total: it is the length, not the number of distinct paths.) *)
Lemma title_total_negative_interval :
  pad_frames six_frames (-100) (Some 1000) = Done (-10, six_frames)
  /\ title_total six_frames (-10) = 61
  /\ len six_frames = 6
  /\ title_total ["g0.fits"; "g0.fits"; "g1.fits"] 1 = 3
  /\ count_unique ["g0.fits"; "g0.fits"; "g1.fits"] = 2.
Proof.
  split; [|repeat split; reflexivity].
  unfold pad_frames. cbn [negb andb Z.eqb Z.ltb Z.compare].
  change (start_frames <? len six_frames) with true. cbv iota.
  change (floordiv 1000 (-100)) with (Done (A:=Z) (-10)).
  rewrite bind_done, pad_outer_nonpositive by lia. reflexivity.
Qed.

(** ** Center crop *)

(** C4 at a frame of five rows and ten columns whose reference pixel is
    column 5 of row 3 (the pixel 204): the crop keeps row 3 and columns 5
    and 6, so the offsets are 2 along the rows and 4 along the columns,
    but lines 152-153 take 2 from CRPIX1 (the column) and 4 from CRPIX2
    (the row). The header then names no pixel of the cropped image, while
    each field shifted by the offset of its own axis names the pixel 204
    again. *)
Theorem center_crop_swaps_axes :
  shape wide_image = (5, 10)
  /\ crop_frac 5 = Done 2 /\ crop_frac 10 = Done 4
  /\ reference_pixel wide_header wide_image = Some 204
  /\ center_crop wide_header wide_image
     = Done (<["CRPIX2" := VInt (3 - 4)]> (<["CRPIX1" := VInt (5 - 2)]> wide_header),
             [[204; 205]])
  /\ (res ← center_crop wide_header wide_image; Done (reference_pixel res.1 res.2))
     = Done None
  /\ pixel_at [[204; 205]] (5 - 4) (3 - 2) = Some 204.
Proof.
  repeat split; vm_compute; reflexivity.
Qed.

(** On a square frame the two offsets are equal and the reference pixel
    is kept: five rows of five columns, reference pixel (3, 3). *)
Example center_crop_square :
  (res ← center_crop {[ "CRPIX1" := VInt 3; "CRPIX2" := VInt 3 ]}
           (map (take 5) wide_image);
   Done (res.2, reference_pixel res.1 res.2))
  = Done ([[202]], Some 202).
Proof. vm_compute. reflexivity. Qed.

(** A dimension below 3 gives the offset 0, and the slice [0:-0] is empty. *)
Example center_crop_two_rows :
  crop_frac 2 = Done 0 /\ crop_data [[1; 2; 3]; [4; 5; 6]] 0 1 = [].
Proof. split; vm_compute; reflexivity. Qed.

(** ** Choice of the extension *)

Lemma getitem_head {A} (l : list A) :
  getitem l 0 = match head l with Some x => Done x | None => Raise IndexError end.
Proof. destruct l; reflexivity. Qed.

Lemma find_name_none (name : string) (hdul : list hdu) :
  Forall (fun h => hdu_name h <> name) hdul ->
  find (fun h => String.eqb (hdu_name h) name) hdul = None.
Proof.
  induction 1 as [|h l Hh _ IH]; [reflexivity|].
  cbn [find]. destruct (String.eqb_spec (hdu_name h) name); [contradiction|exact IH].
Qed.

(** C5: the data and the header come from the first extension named SCI
    when there is one, else from the first named COMPRESSED_IMAGE, else
    from the primary extension (index 0), and so does the header that
    names the output; a file with neither named extension gives the
    primary extension's data and header. *)
Theorem select_hdu_first_source (hdul : list hdu) :
  select_hdu hdul
    = match first_source hdul with
      | Some h => Done (hdu_header h, hdu_data h)
      | None => Raise IndexError
      end
  /\ select_header hdul
    = match first_source hdul with
      | Some h => Done (hdu_header h)
      | None => Raise IndexError
      end
  /\ forall primary rest,
       hdul = primary :: rest ->
       Forall (fun h => hdu_name h <> "SCI" /\ hdu_name h <> "COMPRESSED_IMAGE") hdul ->
       select_hdu hdul = Done (hdu_header primary, hdu_data primary).
Proof.
  assert (Heq : select_hdu hdul
    = match first_source hdul with
      | Some h => Done (hdu_header h, hdu_data h)
      | None => Raise IndexError
      end).
  { unfold select_hdu, first_source, hdul_by_name.
    destruct (find _ hdul) as [h|]; [reflexivity|]. cbn.
    destruct (find _ hdul) as [h|]; [reflexivity|]. cbn.
    rewrite getitem_head. destruct (head hdul); reflexivity. }
  split; [exact Heq|]. split.
  - unfold select_header, first_source, hdul_by_name.
    destruct (find _ hdul) as [h|]; [reflexivity|]. cbn.
    destruct (find _ hdul) as [h|]; [reflexivity|]. cbn.
    rewrite getitem_head. destruct (head hdul); reflexivity.
  - intros primary rest -> Hall. rewrite Heq. unfold first_source.
    rewrite !find_name_none; [reflexivity| |].
    + eapply Forall_impl; [exact Hall|]. intros h [_ ?]. assumption.
    + eapply Forall_impl; [exact Hall|]. intros h [? _]. assumption.
Qed.

Lemma select_hdu_first_source_witness :
  select_hdu [HDU "PRIMARY" m42_header wide_image; HDU "CAT" wide_header []]
  = Done (m42_header, wide_image).
Proof.
  destruct (select_hdu_first_source
              [HDU "PRIMARY" m42_header wide_image; HDU "CAT" wide_header []])
    as (_ & _ & H).
  apply (H (HDU "PRIMARY" m42_header wide_image) [HDU "CAT" wide_header []]).
  - reflexivity.
  - repeat constructor; cbn; discriminate.
Defined.

(** ** The progress reporter *)

Lemma ends_with_newline_app (s t : string) :
  t <> "" -> ends_with_newline (s ++ t) = ends_with_newline t.
Proof.
  intros Ht. induction s as [|a s IH]; [reflexivity|].
  change (String a s ++ t) with (String a (s ++ t)). destruct (s ++ t) eqn:E.
  - destruct s; cbn in E; [contradiction|discriminate].
  - exact IH.
Qed.

(** A call returns unless it divides by zero; the text ends with the
    carriage return of line 60 and, for [iteration == total], a newline. *)
Lemma print_progress_bar_returns now iteration total prefix suffix decimals
    length fill time_in :
  total <> 0 -> (time_in = None \/ iteration <> 0) ->
  exists line,
    print_progress_bar now iteration total prefix suffix decimals length fill time_in
    = Done (line ++ cr ++ (if iteration =? total then nl else "")).
Proof.
  intros Htotal Hiter. unfold print_progress_bar, truediv_by_int.
  destruct (Z.eqb_spec total 0) as [?|_]; [contradiction|]. rewrite bind_done.
  destruct time_in as [t0|].
  - destruct Hiter as [?|Hiter]; [discriminate|].
    destruct (Z.eqb_spec iteration 0) as [?|_]; [contradiction|].
    rewrite !bind_done. eexists. reflexivity.
  - rewrite bind_done. eexists. reflexivity.
Qed.






(** ** Observation date *)


(** Lines 158-165 read the field and try the formats as specified. *)
Lemma read_date_spec (strptime : hval -> string -> result Z) (h : header) :
  read_date strptime h
  = match date_field h with
    | Some v => parse_date strptime v
    | None => Raise KeyError
    end.
Proof.
  unfold read_date, date_field, parse_date, header_get.
  destruct (h !! "DATE-OBS") as [v|]; cbn.
  - destruct (strptime v fmt_fraction) as [z|[]]; reflexivity.
  - destruct (h !! "DATE_OBS") as [v|]; cbn; [|reflexivity].
    destruct (strptime v fmt_fraction) as [z|[]]; reflexivity.
Qed.

Lemma unparseable_raises (strptime : hval -> string -> result Z) (h : header) :
  unparseable strptime h -> raises (read_date strptime h).
Proof.
  unfold unparseable. rewrite read_date_spec.
  destruct (date_field h) as [v|]; [|intros _; exists KeyError; reflexivity].
  intros [[e1 H1] [e2 H2]]. unfold parse_date. rewrite H1.
  destruct e1; try (eexists; reflexivity). exists e2. exact H2.
Qed.



(** [update(n)] once the file is open and the extension chosen. *)
Lemma update_loaded (lib : library) (cfg : config) (fits_files : list string)
    (copies time_in n now : Z) (file : string) (hdul : list hdu) (h0 : header)
    (d0 : image) :
  getitem fits_files n = Done file -> fits_open lib file = Done hdul ->
  select_hdu hdul = Done (h0, d0) ->
  update lib cfg fits_files copies time_in n now
  = ('(header_n, data) ←
       (if center cfg then center_crop h0 d0 else Done (h0, d0));
     date ← read_date (strptime lib) header_n;
     z_interval ← zscale_limits lib data;
     made ← overlay (wcs_outcome lib header_n);
     let count := current_count fits_files n in
     artists ←
       (if (count <? 6) && negb (bool_decide (Some (fr cfg) = init_fr cfg)) && tr cfg
        then reticle header_n else Done []);
     printed ←
       (if progress cfg then
          print_progress_bar now (n + 1) (len fits_files)
            ("Creating Gif: Frame " ++ str_of_int count) "" 1 100 default_fill
            (Some time_in)
        else Done "");
     Done (Axes (frame_title lib fits_files copies date n) data z_interval made artists,
           printed)).
Proof.
  intros Hfile Hopen Hsel. unfold update.
  rewrite Hfile, bind_done, Hopen, bind_done, Hsel, bind_done. reflexivity.
Qed.


(** ** The run *)




Lemma padded_spec_elem (k : nat) (y : string) (l : list string) :
  y ∈ l -> y ∈ padded_spec (S k) l.
Proof.
  intros H. unfold padded_spec. rewrite <- (take_drop 5 l) in H.
  apply elem_of_app in H as [H|H]; apply elem_of_app; [left|right; exact H].
  apply list_elem_of_In, in_flat_map. exists y.
  split; [apply list_elem_of_In; exact H|left; reflexivity].
Qed.

(** Padding loses no frame and keeps the first one first. *)
Lemma pad_frames_elem (l padded : list string) (fr copies : Z) (init_fr : option Z)
    (y : string) :
  pad_frames l fr init_fr = Done (copies, padded) -> y ∈ l -> y ∈ padded.
Proof.
  intros H Hy.
  destruct (pad_frames_cases l fr init_fr)
    as [[_ H']|[(c & H' & _)|(c & Hc & _ & _ & H')]]; rewrite H' in H.
  - discriminate.
  - injection H as _ <-. exact Hy.
  - injection H as _ <-. replace (Z.to_nat c) with (S (Z.to_nat (c - 1))) by lia.
    apply padded_spec_elem. exact Hy.
Qed.

Lemma pad_frames_head (l padded : list string) (fr copies : Z) (init_fr : option Z) :
  pad_frames l fr init_fr = Done (copies, padded) -> head padded = head l.
Proof.
  intros H.
  destruct (pad_frames_cases l fr init_fr)
    as [[_ H']|[(c & H' & _)|(c & Hc & _ & _ & H')]]; rewrite H' in H.
  - discriminate.
  - injection H as _ <-. reflexivity.
  - injection H as _ <-. replace (Z.to_nat c) with (S (Z.to_nat (c - 1))) by lia.
    destruct l as [|x l]; reflexivity.
Qed.

(** What a completed run went through. *)
Lemma make_gif_done_inv (lib : library) (cfg : config) (frames : list string)
    (g : gif) (out : string) :
  make_gif lib cfg frames = Done (g, out) ->
  exists frame0 copies padded file0 hdul h obj rn drawn printed,
    getitem frames 0 = Done frame0
    /\ pad_frames (if sort cfg then np_sort frames else frames) (fr cfg) (init_fr cfg)
       = Done (copies, padded)
    /\ getitem padded 0 = Done file0
    /\ fits_open lib file0 = Done hdul
    /\ select_header hdul = Done h
    /\ header_get h "OBJECT" = Done (VStr obj)
    /\ request_number h = Done rn
    /\ save_frames lib cfg padded copies (clock lib 0) (seq 0 (length padded))
       = Done (drawn, printed)
    /\ gif_path g = path_join (lstrip " " (dirname frame0)) (gif_name obj rn).
Proof.
  unfold make_gif. intros H.
  bind_inv H as frame0 Hframe0.
  bind_inv H as [copies padded] Hpad.
  bind_inv H as file0 Hfile0.
  bind_inv H as hdul Hopen.
  bind_inv H as h Hsel.
  bind_inv H as obj Hobj.
  bind_inv H as rn Hrn.
  bind_inv H as site Hsite.
  bind_inv H as inst Hinst.
  bind_inv H as [ax1 printed1] Hupdate.
  bind_inv H as name Hname.
  bind_inv H as [drawn printed] Hsave.
  injection H as <- _.
  destruct obj as [obj| |]; try discriminate. injection Hname as <-.
  exists frame0, copies, padded, file0, hdul, h, obj, rn, drawn, printed.
  repeat split; assumption.
Qed.



(** ** The output path *)

Lemma request_number_cases (h : header) (rn : string) :
  request_number h = Done rn ->
  (h !! "REQNUM" = None /\ rn = "UNKNOWN")
  \/ (exists s, h !! "REQNUM" = Some (VStr s) /\ rn = lstrip "0" s).
Proof.
  unfold request_number, header_get.
  destruct (h !! "REQNUM") as [[s| |]|]; cbn; try discriminate.
  - intros [= <-]. right. exists s. auto.
  - intros [= <-]. left. auto.
Qed.

(** C8, amended: the output path of a run is the directory of the first
    input frame, with its leading blanks stripped, joined with
    <object>_<request number>_guidemovie.gif; blanks and slashes of the
    object name become underscores, the request number loses its leading
    zeros (0042 gives 42), and a header without REQNUM gives UNKNOWN. The
    object and the request number are those of the first frame in the
    order rendered. *)
Theorem output_path_of_run (lib : library) (cfg : config) (frames : list string)
    (g : gif) (out : string) :
  make_gif lib cfg frames = Done (g, out) ->
  exists frame0 file0 hdul h obj rn,
    head frames = Some frame0
    /\ head (if sort cfg then np_sort frames else frames) = Some file0
    /\ fits_open lib file0 = Done hdul
    /\ select_header hdul = Done h
    /\ h !! "OBJECT" = Some (VStr obj)
    /\ ((h !! "REQNUM" = None /\ rn = "UNKNOWN")
        \/ (exists s, h !! "REQNUM" = Some (VStr s) /\ rn = lstrip "0" s))
    /\ gif_path g
       = path_join (lstrip " " (dirname frame0))
           (replace "/" "_" (replace " " "_" obj) ++ "_" ++ rn ++ "_guidemovie.gif")
    /\ lstrip "0" "0042" = "42".
Proof.
  intros Hdone.
  apply make_gif_done_inv in Hdone
    as (frame0 & copies & padded & file0 & hdul & h & obj & rn & drawn & printed
        & Hf0 & Hpad & Hfile0 & Hopen & Hsel & Hobj & Hrn & _ & Hpath).
  exists frame0, file0, hdul, h, obj, rn.
  split; [apply getitem_0; exact Hf0|].
  split; [rewrite <- (pad_frames_head _ _ _ _ _ Hpad); apply getitem_0; exact Hfile0|].
  split; [exact Hopen|]. split; [exact Hsel|]. split.
  { unfold header_get in Hobj. destruct (h !! "OBJECT"); [|discriminate].
    injection Hobj as ->. reflexivity. }
  split; [apply request_number_cases; exact Hrn|].
  split; [exact Hpath|reflexivity].
Qed.

Lemma output_path_of_run_witness :
  exists g out,
    make_gif m42_library quiet tmp_seq_frames = Done (g, out)
    /\ gif_path g = "/tmp/seq/M42_42_guidemovie.gif".
Proof.
  destruct (make_gif m42_library quiet tmp_seq_frames) as [[g out]|e] eqn:Hrun.
  - exists g, out. split; [reflexivity|].
    destruct (output_path_of_run m42_library quiet tmp_seq_frames g out Hrun)
      as (frame0 & file0 & hdul & h & obj & rn & H0 & H1 & H2 & H3 & H4 & H5 & H6 & _).
    injection H0 as <-. injection H1 as <-. injection H2 as <-.
    injection H3 as <-. injection H4 as <-.
    destruct H5 as [[H5 _]|(s & H5 & ->)]; [discriminate|].
    injection H5 as <-. rewrite H6. reflexivity.
  - exfalso. revert Hrun. vm_compute. discriminate.
Defined.

(** C8 as stated fails for a directory that starts with a blank: line 80
    strips it, and the GIF goes to another directory than the frames. *)
Lemma output_path_leading_blank :
  dirname " d/g0.fits" = " d"
  /\ path_join (dirname " d/g0.fits") (gif_name "M42" "42")
     = " d/M42_42_guidemovie.gif"
  /\ exists g out,
       make_gif m42_library quiet [" d/g0.fits"] = Done (g, out)
       /\ gif_path g = "d/M42_42_guidemovie.gif".
Proof.
  split; [reflexivity|]. split; [reflexivity|].
  destruct (make_gif m42_library quiet [" d/g0.fits"]) as [[g out]|e] eqn:Hrun.
  - exists g, out. split; [reflexivity|].
    revert Hrun. vm_compute. intros [= <- _]. reflexivity.
  - exfalso. revert Hrun. vm_compute. discriminate.
Qed.

(** ** Coordinate overlay *)



(** Any other exception of the block leaves [update] as it is raised. *)
Lemma overlay_propagates (outcome : wcs_call -> option exn) (e : exn) :
  (run_calls outcome overlay_block []).2 = Some e ->
  e <> InvalidTransformError -> e <> AttributeError ->
  overlay outcome = Raise e.
Proof.
  unfold overlay. destruct (run_calls outcome overlay_block []) as [made raised].
  cbn. intros -> H1 H2. destruct e; cbn; try reflexivity; contradiction.
Qed.



(** * Further properties of the script *)

(** ** The padder, for every multiplier *)

Lemma flat_map_replicate_length (k : nat) (l : list string) :
  length (flat_map (replicate k) l) = (k * length l)%nat.
Proof.
  induction l as [|x l IH]; cbn [flat_map length]; [lia|].
  rewrite length_app, length_replicate, IH. lia.
Qed.

Lemma flat_map_replicate_lookup (k : nat) (l : list string) : forall j m,
  (m < k)%nat -> flat_map (replicate k) l !! (k * j + m)%nat = l !! j.
Proof.
  induction l as [|x l IH]; intros j m Hm; cbn [flat_map].
  - rewrite !lookup_nil. reflexivity.
  - destruct j as [|j].
    + rewrite lookup_app_l by (rewrite length_replicate; lia).
      rewrite lookup_replicate_2 by lia. reflexivity.
    + rewrite lookup_app_r by (rewrite length_replicate; lia).
      rewrite length_replicate.
      replace (k * S j + m - k)%nat with (k * j + m)%nat by lia.
      cbn [lookup list_lookup]. apply IH. exact Hm.
Qed.

Lemma padded_spec_lookup (k : nat) (l : list string) (p : nat) :
  (1 <= k)%nat -> (5 <= length l)%nat ->
  padded_spec k l !! p = l !! source_index k p.
Proof.
  intros Hk Hl. unfold padded_spec, source_index.
  assert (Hlen : length (flat_map (replicate k) (take 5 l)) = (5 * k)%nat).
  { rewrite flat_map_replicate_length, length_take, Nat.min_l by lia. lia. }
  destruct (Nat.ltb_spec p (5 * k)) as [Hp|Hp].
  - rewrite lookup_app_l by lia.
    pose proof (Nat.div_mod_eq p k) as Hdm.
    pose proof (Nat.mod_upper_bound p k ltac:(lia)) as Hmod.
    rewrite Hdm at 1. rewrite flat_map_replicate_lookup by exact Hmod.
    apply lookup_take_lt. apply Nat.Div0.div_lt_upper_bound. lia.
  - rewrite lookup_app_r by lia. rewrite Hlen, lookup_drop. f_equal. lia.
Qed.

(** X1. For a positive base interval below the intro interval and more
    than five frames, the multiplier is the floored quotient [k] of the
    intervals, each of the first five frames fills [k] consecutive places
    and the others follow once, in order: the list grows by [5 (k - 1)]. *)
Theorem pad_frames_any_multiplier (l : list string) (fr ifr : Z) :
  0 < fr -> fr < ifr -> (5 < length l)%nat ->
  pad_frames l fr (Some ifr) = Done (ifr / fr, padded_spec (Z.to_nat (ifr / fr)) l)
  /\ 1 <= ifr / fr
  /\ length (padded_spec (Z.to_nat (ifr / fr)) l)
     = (length l + 5 * (Z.to_nat (ifr / fr) - 1))%nat
  /\ (forall j m, (j < 5)%nat -> (m < Z.to_nat (ifr / fr))%nat ->
        padded_spec (Z.to_nat (ifr / fr)) l !! (Z.to_nat (ifr / fr) * j + m)%nat
        = l !! j)
  /\ (forall j, (5 <= j)%nat ->
        padded_spec (Z.to_nat (ifr / fr)) l !! (j + 5 * (Z.to_nat (ifr / fr) - 1))%nat
        = l !! j).
Proof.
  intros Hfr Hlt Hlen.
  assert (Hk : 1 <= ifr / fr) by (apply Z.div_le_lower_bound; lia).
  split; [apply pad_frames_padded; unfold len; lia|]. split; [exact Hk|].
  set (k := Z.to_nat (ifr / fr)). assert (1 <= k)%nat by lia.
  split; [|split].
  - replace k with (S (k - 1)) at 1 by lia. apply padded_spec_length. lia.
  - intros j m Hj Hm. rewrite padded_spec_lookup by lia. unfold source_index.
    destruct (Nat.ltb_spec (k * j + m) (5 * k)) as [_|?]; [|nia].
    f_equal. rewrite Nat.mul_comm, Nat.div_add_l by lia.
    rewrite Nat.div_small by exact Hm. lia.
  - intros j Hj. rewrite padded_spec_lookup by lia. unfold source_index.
    destruct (Nat.ltb_spec (j + 5 * (k - 1)) (5 * k)) as [?|_]; [lia|].
    f_equal. lia.
Qed.

Lemma pad_frames_any_multiplier_witness :
  pad_frames six_frames 40 (Some 130) = Done (3, padded_spec 3 six_frames)
  /\ padded_spec 3 six_frames !! 14%nat = Some "g4.fits"
  /\ padded_spec 3 six_frames !! 15%nat = Some "g5.fits".
Proof.
  destruct (pad_frames_any_multiplier six_frames 40 130) as (H1 & _ & _ & H2 & H3);
    [lia|lia|cbn; lia|].
  split; [exact H1|]. split.
  - apply (H2 4%nat 2%nat); [lia|]. change (Z.to_nat (130 / 40)) with 3%nat. lia.
  - apply (H3 5%nat). lia.
Defined.

Lemma pad_frames_zero_interval (l : list string) (ifr : Z) :
  (5 < length l)%nat -> 0 < ifr -> pad_frames l 0 (Some ifr) = Raise ZeroDivisionError.
Proof.
  intros Hlen Hpos. unfold pad_frames, floordiv, start_frames.
  assert (len l = Z.of_nat (length l)) by reflexivity.
  z_tests. reflexivity.
Qed.

(** X2. The padding step raises only ZeroDivisionError, and exactly when
    the base interval is 0, the intro interval is positive and there are
    more than five frames; its loops never index outside the array. *)
Theorem pad_frames_raises_iff (l : list string) (fr : Z) (init_fr : option Z)
    (e : exn) :
  pad_frames l fr init_fr = Raise e
  <-> e = ZeroDivisionError /\ fr = 0
      /\ (exists ifr, init_fr = Some ifr /\ 0 < ifr) /\ (5 < length l)%nat.
Proof.
  split.
  - intros H.
    destruct (pad_frames_cases l fr init_fr)
      as [[Hfr H']|[(c & H' & _)|(c & _ & _ & _ & H')]]; rewrite H' in H;
      try discriminate.
    injection H as <-. split; [reflexivity|]. split; [exact Hfr|].
    unfold pad_frames in H'. destruct init_fr as [ifr|]; [|discriminate].
    destruct (negb (ifr =? 0) && (fr <? ifr) && (start_frames <? len l)) eqn:Hg;
      [|discriminate].
    apply andb_prop in Hg as [Hg Hlen]. apply andb_prop in Hg as [_ Hlt].
    apply Z.ltb_lt in Hlt, Hlen. unfold start_frames, len in Hlen.
    split; [exists ifr; split; [reflexivity|lia]|lia].
  - intros (-> & -> & (ifr & -> & Hpos) & Hlen).
    apply pad_frames_zero_interval; assumption.
Qed.

Lemma same_elements_count_unique (l k : list string) :
  (forall x, x ∈ l <-> x ∈ k) -> count_unique l = count_unique k.
Proof.
  intros H. unfold count_unique, len. f_equal. apply Permutation_length.
  apply NoDup_Permutation; [apply NoDup_remove_dups..|].
  intros x. rewrite !elem_of_remove_dups. apply H.
Qed.

Lemma padded_spec_elem_inv (k : nat) (y : string) (l : list string) :
  y ∈ padded_spec k l -> y ∈ l.
Proof.
  unfold padded_spec. intros H. rewrite <- (take_drop 5 l).
  apply elem_of_app in H as [H|H]; apply elem_of_app; [left|right; exact H].
  apply list_elem_of_In, in_flat_map in H as (x & Hx & Hy).
  apply list_elem_of_In in Hx, Hy. apply elem_of_replicate in Hy as [-> _]. exact Hx.
Qed.

Lemma flat_map_replicate_sublist (k : nat) (l : list string) :
  sublist l (flat_map (replicate (S k)) l).
Proof.
  induction l as [|x l IH]; [constructor|].
  cbn [flat_map replicate app]. apply sublist_skip.
  apply sublist_inserts_l. exact IH.
Qed.

(** X3. Padding only repeats frames that are there: the original list is
    a subsequence of the padded one, which is at least as long, holds the
    same paths, starts with the same frame and has as many distinct
    paths. *)
Theorem pad_frames_only_repeats (l padded : list string) (fr copies : Z)
    (init_fr : option Z) :
  pad_frames l fr init_fr = Done (copies, padded) ->
  sublist l padded
  /\ (length l <= length padded)%nat
  /\ (forall x, x ∈ padded <-> x ∈ l)
  /\ head padded = head l
  /\ count_unique padded = count_unique l.
Proof.
  intros H.
  assert (Hsub : sublist l padded).
  { destruct (pad_frames_cases l fr init_fr)
      as [[_ H']|[(c & H' & _)|(c & Hc & _ & _ & H')]]; rewrite H' in H.
    - discriminate.
    - injection H as _ <-. reflexivity.
    - injection H as _ <-. replace (Z.to_nat c) with (S (Z.to_nat (c - 1))) by lia.
      unfold padded_spec. rewrite <- (take_drop 5 l) at 1.
      apply sublist_app; [apply flat_map_replicate_sublist|reflexivity]. }
  assert (Helem : forall x, x ∈ padded <-> x ∈ l).
  { intros x. split; [|apply (pad_frames_elem _ _ _ _ _ _ H)].
    destruct (pad_frames_cases l fr init_fr)
      as [[_ H']|[(c & H' & _)|(c & Hc & _ & _ & H')]]; rewrite H' in H.
    - discriminate.
    - injection H as _ <-. auto.
    - injection H as _ <-. apply padded_spec_elem_inv. }
  split; [exact Hsub|]. split; [apply sublist_length; exact Hsub|].
  split; [exact Helem|]. split; [apply (pad_frames_head _ _ _ _ _ H)|].
  apply same_elements_count_unique. exact Helem.
Qed.

Lemma pad_frames_only_repeats_witness :
  sublist six_frames (padded_spec 10 six_frames)
  /\ count_unique (padded_spec 10 six_frames) = 6.
Proof.
  destruct (pad_frames_only_repeats six_frames (padded_spec 10 six_frames) 100 10
              (Some 1000)) as (H1 & _ & _ & _ & H2).
  - apply pad_frames_padded; [lia|lia|reflexivity|lia|]. change (1000 / 100) with 10. lia.
  - split; [exact H1|exact H2].
Defined.

Lemma flat_map_replicate_one (l : list string) : flat_map (replicate 1) l = l.
Proof.
  induction l as [|x l IH]; [reflexivity|].
  cbn [flat_map]. rewrite IH. reflexivity.
Qed.

(** X4. An intro interval above the base interval but below twice the
    base interval passes the guard of line 84 and still changes nothing:
    the multiplier is 1. *)
Theorem pad_frames_multiplier_one (l : list string) (fr ifr : Z) :
  0 < fr -> fr < ifr -> ifr < 2 * fr -> pad_frames l fr (Some ifr) = Done (1, l).
Proof.
  intros Hfr Hlt Hlt2.
  assert (Hq : ifr / fr = 1).
  { symmetry. apply (Z.div_unique ifr fr 1 (ifr - fr)); lia. }
  destruct (Z.ltb_spec 5 (len l)) as [Hlen|Hlen].
  - rewrite pad_frames_padded by (try lia; rewrite Hq; lia).
    rewrite Hq. change (Z.to_nat 1) with 1%nat. f_equal. f_equal.
    unfold padded_spec. rewrite flat_map_replicate_one. apply take_drop.
  - unfold pad_frames, start_frames. z_tests. rewrite andb_false_r. reflexivity.
Qed.

Lemma pad_frames_multiplier_one_witness :
  pad_frames six_frames 100 (Some 150) = Done (1, six_frames).
Proof. apply (pad_frames_multiplier_one six_frames 100 150); lia. Defined.

(** ** The counter of the titles *)

Lemma py_slice_prefix {A} (l : list A) (n : Z) :
  0 <= n -> py_slice l 0 n = take (Z.to_nat n) l.
Proof.
  intros Hn. unfold py_slice. pose proof (len_nonneg l) as Hl.
  destruct (Z.ltb_spec 0 0) as [?|_]; [lia|].
  destruct (Z.ltb_spec n 0) as [?|_]; [lia|].
  rewrite (Z.min_l 0) by lia. rewrite Z.sub_0_r.
  change (drop (Z.to_nat 0) l) with l.
  destruct (Z.min_spec n (len l)) as [[_ ->]|[Hle ->]]; [reflexivity|].
  unfold len in *. rewrite Nat2Z.id.
  rewrite !take_ge by lia. reflexivity.
Qed.

Lemma elem_of_take_lookup (l : list string) (n : nat) (x : string) :
  x ∈ take n l <-> exists q, (q < n)%nat /\ l !! q = Some x.
Proof.
  rewrite list_elem_of_lookup. split.
  - intros [q Hq]. apply lookup_take_Some in Hq as [Hq Hlt]. exists q. auto.
  - intros (q & Hlt & Hq). exists q. rewrite lookup_take_lt by exact Hlt. exact Hq.
Qed.

Lemma source_index_mono (k p q : nat) :
  (1 <= k)%nat -> (q <= p)%nat -> (source_index k q <= source_index k p)%nat.
Proof.
  intros Hk Hqp. unfold source_index.
  destruct (Nat.ltb_spec q (5 * k)), (Nat.ltb_spec p (5 * k)); try lia.
  - apply Nat.Div0.div_le_mono. exact Hqp.
  - assert (q / k < 5)%nat by (apply Nat.Div0.div_lt_upper_bound; lia). lia.
Qed.

(** A place that shows the source frame [i]. *)
Lemma source_index_reached (k p i : nat) :
  (1 <= k)%nat -> (i <= source_index k p)%nat ->
  exists q, (q <= p)%nat /\ source_index k q = i.
Proof.
  intros Hk Hi. unfold source_index in *.
  destruct (Nat.ltb_spec i 5) as [Hi5|Hi5].
  - exists (k * i)%nat. split.
    + destruct (Nat.ltb_spec p (5 * k)); [|nia].
      pose proof (Nat.div_mod_eq p k). nia.
    + destruct (Nat.ltb_spec (k * i) (5 * k)); [|nia].
      rewrite Nat.mul_comm. apply Nat.div_mul. lia.
  - exists (i + 5 * (k - 1))%nat.
    destruct (Nat.ltb_spec p (5 * k)) as [Hp|Hp].
    + assert (p / k < 5)%nat by (apply Nat.Div0.div_lt_upper_bound; lia). lia.
    + split; [lia|]. destruct (Nat.ltb_spec (i + 5 * (k - 1)) (5 * k)); lia.
Qed.

Lemma count_unique_take_NoDup (l : list string) (n : nat) :
  NoDup l -> (n <= length l)%nat -> count_unique (take n l) = Z.of_nat n.
Proof.
  intros Hnd Hn. rewrite count_unique_NoDup.
  - unfold len. rewrite length_take. lia.
  - eapply sublist_NoDup; [exact Hnd|apply sublist_take].
Qed.

Lemma current_count_padded (l : list string) (k p : nat) :
  NoDup l -> (1 <= k)%nat -> (5 < length l)%nat ->
  (p < length (padded_spec k l))%nat ->
  current_count (padded_spec k l) (Z.of_nat p) = Z.of_nat (source_index k p) + 1.
Proof.
  intros Hnd Hk Hlen Hp.
  assert (Hsrc : (source_index k p < length l)%nat).
  { replace k with (S (k - 1)) in Hp at 1 by lia.
    rewrite padded_spec_length in Hp by lia. unfold source_index.
    destruct (Nat.ltb_spec p (5 * k)); [|lia].
    assert (p / k < 5)%nat by (apply Nat.Div0.div_lt_upper_bound; lia). lia. }
  unfold current_count. rewrite py_slice_prefix by lia.
  replace (Z.to_nat (Z.of_nat p + 1)) with (S p) by lia.
  rewrite (same_elements_count_unique _ (take (S (source_index k p)) l)).
  - rewrite count_unique_take_NoDup by (assumption || lia). lia.
  - intros x. rewrite !elem_of_take_lookup. split.
    + intros (q & Hq & Hx). rewrite padded_spec_lookup in Hx by lia.
      exists (source_index k q). split; [|exact Hx].
      pose proof (source_index_mono k p q Hk). lia.
    + intros (i & Hi & Hx).
      destruct (source_index_reached k p i Hk) as (q & Hq & <-); [lia|].
      exists q. split; [lia|]. rewrite padded_spec_lookup by lia. exact Hx.
Qed.

Lemma current_count_below_6 (l : list string) (k p : nat) :
  NoDup l -> (1 <= k)%nat -> (5 < length l)%nat ->
  (p < length (padded_spec k l))%nat ->
  (current_count (padded_spec k l) (Z.of_nat p) <? 6) = (p <? 5 * k)%nat.
Proof.
  intros Hnd Hk Hlen Hp. rewrite current_count_padded by assumption.
  unfold source_index. destruct (Nat.ltb_spec p (5 * k)) as [Hlt|Hge].
  - assert (p / k < 5)%nat by (apply Nat.Div0.div_lt_upper_bound; lia).
    apply Z.ltb_lt. lia.
  - apply Z.ltb_ge. lia.
Qed.

(** X5. With distinct paths, more than five of them, and a multiplier
    [k] of at least 1, the counter K in the title of place [p] of the
    padded sequence is the rank of the source frame shown there: it goes
    up by one every [k] places through the first five frames and by one a
    place after them, so it is below 6 exactly on the first [5 k] places,
    the slowed-down ones. *)
Theorem current_count_on_padded (l : list string) (k p : nat) :
  NoDup l -> (1 <= k)%nat -> (5 < length l)%nat ->
  (p < length (padded_spec k l))%nat ->
  current_count (padded_spec k l) (Z.of_nat p) = Z.of_nat (source_index k p) + 1
  /\ (current_count (padded_spec k l) (Z.of_nat p) <? 6) = (p <? 5 * k)%nat.
Proof.
  intros Hnd Hk Hlen Hp. split.
  - apply current_count_padded; assumption.
  - apply current_count_below_6; assumption.
Qed.

Lemma six_frames_NoDup : NoDup six_frames.
Proof. apply (bool_decide_unpack _). vm_compute. exact I. Qed.

Lemma current_count_on_padded_witness :
  current_count (padded_spec 10 six_frames) 49 = 5
  /\ current_count (padded_spec 10 six_frames) 50 = 6.
Proof.
  split.
  - apply (current_count_on_padded six_frames 10 49).
    + exact six_frames_NoDup.
    + lia.
    + cbn. lia.
    + vm_compute. lia.
  - apply (current_count_on_padded six_frames 10 50).
    + exact six_frames_NoDup.
    + lia.
    + cbn. lia.
    + vm_compute. lia.
Defined.

(** ** The render step, stage by stage *)

(** The stages of [update] after the frame is loaded. *)
Lemma update_done_inv (lib : library) (cfg : config) (fits_files : list string)
    (copies time_in n now : Z) (ax : axes) (printed : string) :
  update lib cfg fits_files copies time_in n now = Done (ax, printed) ->
  exists file hdul h0 d0 h d date limits made artists,
    getitem fits_files n = Done file
    /\ fits_open lib file = Done hdul
    /\ select_hdu hdul = Done (h0, d0)
    /\ (if center cfg then center_crop h0 d0 else Done (h0, d0)) = Done (h, d)
    /\ read_date (strptime lib) h = Done date
    /\ zscale_limits lib d = Done limits
    /\ overlay (wcs_outcome lib h) = Done made
    /\ (if (current_count fits_files n <? 6)
           && negb (bool_decide (Some (fr cfg) = init_fr cfg)) && tr cfg
        then reticle h else Done []) = Done artists
    /\ (if progress cfg then
          print_progress_bar now (n + 1) (len fits_files)
            ("Creating Gif: Frame " ++ str_of_int (current_count fits_files n))
            "" 1 100 default_fill (Some time_in)
        else Done "") = Done printed
    /\ ax = Axes (frame_title lib fits_files copies date n) d limits made artists.
Proof.
  unfold update. intros H.
  bind_inv H as file Hfile. bind_inv H as hdul Hopen.
  bind_inv H as [h0 d0] Hsel. bind_inv H as [h d] Hcrop.
  bind_inv H as date Hdate. bind_inv H as limits Hlimits.
  bind_inv H as made Hmade. cbv zeta in H.
  bind_inv H as artists Hart. bind_inv H as out Hout.
  injection H as <- <-.
  exists file, hdul, h0, d0, h, d, date, limits, made, artists.
  repeat split; assumption.
Qed.

Lemma update_done_intro (lib : library) (cfg : config) (fits_files : list string)
    (copies time_in n now : Z) (file : string) (hdul : list hdu) (h0 h : header)
    (d0 d : image) (date : Z) (limits : float * float) (made : list wcs_call)
    (artists : list circle) (printed : string) :
  getitem fits_files n = Done file ->
  fits_open lib file = Done hdul ->
  select_hdu hdul = Done (h0, d0) ->
  (if center cfg then center_crop h0 d0 else Done (h0, d0)) = Done (h, d) ->
  read_date (strptime lib) h = Done date ->
  zscale_limits lib d = Done limits ->
  overlay (wcs_outcome lib h) = Done made ->
  (if (current_count fits_files n <? 6)
      && negb (bool_decide (Some (fr cfg) = init_fr cfg)) && tr cfg
   then reticle h else Done []) = Done artists ->
  (if progress cfg then
     print_progress_bar now (n + 1) (len fits_files)
       ("Creating Gif: Frame " ++ str_of_int (current_count fits_files n))
       "" 1 100 default_fill (Some time_in)
   else Done "") = Done printed ->
  update lib cfg fits_files copies time_in n now
  = Done (Axes (frame_title lib fits_files copies date n) d limits made artists,
          printed).
Proof.
  intros Hfile Hopen Hsel Hcrop Hdate Hlimits Hmade Hart Hout.
  rewrite (update_loaded _ _ _ _ _ _ _ _ _ _ _ Hfile Hopen Hsel).
  rewrite Hcrop, bind_done. cbv beta iota.
  rewrite Hdate, bind_done, Hlimits, bind_done, Hmade, bind_done. cbv zeta.
  rewrite Hart, bind_done, Hout, bind_done. reflexivity.
Qed.

(** X6. With the reticle requested and a base interval other than the
    intro interval, a frame rendered at place [p] of a sequence of
    distinct paths padded [k] times carries the two reticle circles when
    [p] is one of the first [5 k] places, and no artist after them: the
    reticle shows on the slowed-down frames and on no other. *)
Theorem reticle_on_slowed_frames (lib : library) (cfg : config) (l : list string)
    (k p : nat) (copies time_in now : Z) (ax : axes) (printed : string) :
  NoDup l -> (1 <= k)%nat -> (5 < length l)%nat ->
  (p < length (padded_spec k l))%nat ->
  tr cfg = true -> init_fr cfg <> Some (fr cfg) ->
  update lib cfg (padded_spec k l) copies time_in (Z.of_nat p) now = Done (ax, printed) ->
  length (ax_artists ax) = if (p <? 5 * k)%nat then 2%nat else 0%nat.
Proof.
  intros Hnd Hk Hlen Hp Htr Hfr Hupd.
  apply update_done_inv in Hupd
    as (file & hdul & h0 & d0 & h & d & date & limits & made & artists
        & _ & _ & _ & _ & _ & _ & _ & Hart & _ & ->).
  cbn [ax_artists].
  rewrite (current_count_below_6 l k p Hnd Hk Hlen Hp), Htr in Hart.
  rewrite bool_decide_eq_false_2 in Hart by congruence.
  destruct (p <? 5 * k)%nat; cbn [negb andb] in Hart.
  - unfold reticle in Hart.
    bind_inv Hart as x5 H1. bind_inv Hart as y5 H2. bind_inv Hart as s5 H3.
    bind_inv Hart as r5 H4. bind_inv Hart as x15 H5. bind_inv Hart as y15 H6.
    bind_inv Hart as s15 H7. bind_inv Hart as r15 H8.
    injection Hart as <-. reflexivity.
  - injection Hart as <-. reflexivity.
Qed.

Lemma reticle_on_slowed_frames_witness :
  exists ax printed,
    update m42_library (Config None true 100 (Some 1000) true false false)
      (padded_spec 10 six_frames) 10 0 49 0 = Done (ax, printed)
    /\ length (ax_artists ax) = 2%nat.
Proof.
  destruct (update m42_library (Config None true 100 (Some 1000) true false false)
              (padded_spec 10 six_frames) 10 0 49 0) as [[ax printed]|e] eqn:Hrun.
  - exists ax, printed. split; [reflexivity|].
    apply (reticle_on_slowed_frames m42_library
             (Config None true 100 (Some 1000) true false false) six_frames 10 49
             10 0 0 ax printed); try exact Hrun; try exact six_frames_NoDup;
      try (cbn; lia); try reflexivity; try discriminate.
  - exfalso. revert Hrun. vm_compute. discriminate.
Defined.

(** X7. Switching the progress report on never makes a render step fail
    and never changes the axes it returns: for an index from 0 on, the
    report is printed, and it ends with a newline exactly at the last
    index. Without the report nothing is printed. *)
Theorem progress_report_is_harmless (lib : library) (cfg : config)
    (fits_files : list string) (copies time_in n now : Z) (ax : axes)
    (printed : string) :
  0 <= n ->
  update lib (with_progress cfg false) fits_files copies time_in n now
    = Done (ax, printed) ->
  printed = ""
  /\ exists report,
       update lib (with_progress cfg true) fits_files copies time_in n now
         = Done (ax, report)
       /\ (ends_with_newline report = true <-> n + 1 = len fits_files).
Proof.
  intros Hn Hupd.
  apply update_done_inv in Hupd
    as (file & hdul & h0 & d0 & h & d & date & limits & made & artists
        & Hfile & Hopen & Hsel & Hcrop & Hdate & Hlimits & Hmade & Hart & Hout & ->).
  cbn [with_progress progress center fr init_fr tr] in *.
  injection Hout as <-. split; [reflexivity|].
  destruct (print_progress_bar_returns now (n + 1) (len fits_files)
              ("Creating Gif: Frame " ++ str_of_int (current_count fits_files n))
              "" 1%nat 100 default_fill (Some time_in)) as [line Hline].
  { pose proof (getitem_nonempty _ _ _ Hfile). lia. }
  { right. lia. }
  eexists. split.
  - apply (update_done_intro lib (with_progress cfg true) fits_files copies time_in
             n now file hdul h0 h d0 d date limits made artists);
      cbn [with_progress progress center fr init_fr tr]; try assumption.
    exact Hline.
  - rewrite ends_with_newline_app.
    2:{ destruct (n + 1 =? len fits_files); discriminate. }
    destruct (Z.eqb_spec (n + 1) (len fits_files)) as [->|Hne]; cbn.
    + split; reflexivity.
    + split; [discriminate|contradiction].
Qed.

Lemma progress_report_is_harmless_witness :
  exists ax report,
    update m42_library (with_progress quiet true) six_frames 1 0 5 7000000
      = Done (ax, report)
    /\ (ends_with_newline report = true <-> 5 + 1 = len six_frames).
Proof.
  destruct (update m42_library (with_progress quiet false) six_frames 1 0 5 7000000)
    as [[ax printed]|e] eqn:Hrun.
  - destruct (progress_report_is_harmless m42_library quiet six_frames 1 0 5 7000000
                ax printed) as (_ & report & H1 & H2); [lia|exact Hrun|].
    exists ax, report. split; [exact H1|exact H2].
  - exfalso. revert Hrun. vm_compute. discriminate.
Defined.

(** ** The progress bar *)





Lemma above_5400_is_above_90 (x : float) :
  (90 <? x)%float = false -> (5400 <? x)%float = false.
Proof.
  rewrite !ltb_spec. unfold SFltb.
  change (Prim2SF 90) with (S754_finite false 6333186975989760 (-46)).
  change (Prim2SF 5400) with (S754_finite false 5937362789990400 (-40)).
  destruct (Prim2SF x) as [s|s| |s m e]; unfold SFcompare; try (destruct s); auto.
  destruct (Z.compare_spec (-46) e); destruct (Z.compare_spec (-40) e);
    try lia; try discriminate; auto.
Qed.

(** X9. The remaining time is never given in hours: line 54 tests for
    more than 5400 seconds only after line 52 has taken everything above
    90 seconds, so an estimate is printed in minutes when it exceeds 90
    seconds and in seconds otherwise. *)
Theorem remaining_time_never_in_hours (total_time : float) :
  time_left_of total_time
  = if (90 <? total_time)%float
    then "| " ++ format_f 1 (total_time / 60)%float ++ " min remaining |"
    else "| " ++ format_f 1 total_time ++ " sec remaining |".
Proof.
  unfold time_left_of. destruct (90 <? total_time)%float eqn:H; [reflexivity|].
  rewrite (above_5400_is_above_90 _ H). reflexivity.
Qed.

(** ** Center crop, for every shape *)

Lemma py_slice_symmetric {A} (l : list A) (a : Z) :
  0 < a -> 2 * a <= len l ->
  py_slice l a (- a) = take (Z.to_nat (len l - 2 * a)) (drop (Z.to_nat a) l).
Proof.
  intros Ha Hl. unfold py_slice.
  destruct (Z.ltb_spec (- a) 0) as [_|?]; [|lia].
  destruct (Z.ltb_spec a 0) as [?|_]; [lia|].
  rewrite Z.max_r, Z.min_l by lia. f_equal. lia.
Qed.

Lemma py_slice_symmetric_lookup {A} (l : list A) (a : Z) (i : nat) :
  0 < a -> 2 * a <= len l -> Z.of_nat i < len l - 2 * a ->
  py_slice l a (- a) !! i = l !! (Z.to_nat a + i)%nat.
Proof.
  intros Ha Hl Hi. rewrite py_slice_symmetric by assumption.
  rewrite lookup_take_lt by lia. apply lookup_drop.
Qed.

Lemma map_lookup {A B} (f : A -> B) (l : list A) (i : nat) :
  map f l !! i = f <$> l !! i.
Proof.
  revert i. induction l as [|x l IH]; intros [|i]; cbn; try reflexivity. apply IH.
Qed.

(** The pixel of a place of the cropped image. *)
Lemma crop_data_pixel (data : image) (x_frac y_frac : Z) (cols : nat) (r c : nat) :
  Forall (fun row => length row = cols) data ->
  0 < x_frac -> 0 < y_frac ->
  Z.of_nat r < len data - 2 * x_frac -> Z.of_nat c < Z.of_nat cols - 2 * y_frac ->
  (row ← crop_data data x_frac y_frac !! r; row !! c)
  = (row ← data !! (Z.to_nat x_frac + r)%nat; row !! (Z.to_nat y_frac + c)%nat).
Proof.
  intros Hrect Hx Hy Hr Hc. unfold crop_data, image.
  rewrite map_lookup, py_slice_symmetric_lookup by lia.
  destruct (@lookup _ _ (list (list Z)) _ (Z.to_nat x_frac + r)%nat data)
    as [row|] eqn:Hrow; [|reflexivity].
  cbn. assert (Hlen : length row = cols).
  { rewrite Forall_forall in Hrect. apply Hrect.
    apply list_elem_of_lookup. eauto. }
  apply py_slice_symmetric_lookup; unfold len; lia.
Qed.

(** X10. After a center crop of a frame of [rows] rows and [cols]
    columns with row offset [x] and column offset [y], the header names
    the pixel that was [y - x] columns and [x - y] rows away from the
    reference pixel. For equal offsets, as on a square frame, it still
    names the reference pixel. *)
Theorem center_crop_reference_pixel (h h' : header) (d d' : image) (cols : nat)
    (x y c1 c2 : Z) :
  center_crop h d = Done (h', d') ->
  Forall (fun row => length row = cols) d ->
  crop_frac (len d) = Done x -> crop_frac (Z.of_nat cols) = Done y ->
  0 < x -> 0 < y ->
  h !! "CRPIX1" = Some (VInt c1) -> h !! "CRPIX2" = Some (VInt c2) ->
  1 <= c1 - x <= Z.of_nat cols - 2 * y -> 1 <= c2 - y <= len d - 2 * x ->
  reference_pixel h' d' = pixel_at d (c1 + (y - x)) (c2 + (x - y))
  /\ (x = y -> reference_pixel h' d' = reference_pixel h d).
Proof.
  intros Hcrop Hrect Hx Hy Hxpos Hypos H1 H2 Hc1 Hc2.
  assert (Hshape : shape d = (len d, Z.of_nat cols)).
  { destruct d as [|row d]; [unfold len in Hc2; cbn in Hc2; lia|].
    unfold shape. f_equal. unfold len. f_equal.
    apply (Forall_inv Hrect). }
  unfold center_crop in Hcrop. rewrite Hshape, Hx, Hy in Hcrop.
  rewrite !bind_done in Hcrop. unfold header_get in Hcrop. cbv zeta in Hcrop.
  rewrite H1, bind_done in Hcrop.
  change (hval_sub (VInt c1) x) with (Done (VInt (c1 - x))) in Hcrop.
  rewrite bind_done, lookup_insert_ne, H2, bind_done in Hcrop by discriminate.
  change (hval_sub (VInt c2) y) with (Done (VInt (c2 - y))) in Hcrop.
  rewrite bind_done in Hcrop. injection Hcrop as <- <-.
  assert (Hmain : reference_pixel
                    (<["CRPIX2" := VInt (c2 - y)]> (<["CRPIX1" := VInt (c1 - x)]> h))
                    (crop_data d x y)
                  = pixel_at d (c1 + (y - x)) (c2 + (x - y))).
  { unfold reference_pixel.
    rewrite lookup_insert_ne, lookup_insert_eq, lookup_insert_eq by discriminate.
    unfold pixel_at.
    destruct (Z.leb_spec 1 (c1 - x)) as [_|?]; [|lia].
    destruct (Z.leb_spec 1 (c2 - y)) as [_|?]; [|lia].
    destruct (Z.leb_spec 1 (c1 + (y - x))) as [_|?]; [|lia].
    destruct (Z.leb_spec 1 (c2 + (x - y))) as [_|?]; [|lia].
    cbn [andb].
    rewrite (crop_data_pixel d x y cols) by (assumption || lia).
    replace (Z.to_nat x + Z.to_nat (c2 - y - 1))%nat
      with (Z.to_nat (c2 + (x - y) - 1)) by lia.
    replace (Z.to_nat y + Z.to_nat (c1 - x - 1))%nat
      with (Z.to_nat (c1 + (y - x) - 1)) by lia.
    reflexivity. }
  split; [exact Hmain|]. intros ->. rewrite Hmain. unfold reference_pixel.
  rewrite H1, H2. f_equal; lia.
Qed.

Lemma center_crop_reference_pixel_witness :
  (res ← center_crop wide_header tall_image; Done (reference_pixel res.1 res.2))
  = Done (pixel_at tall_image 3 5).
Proof.
  destruct (center_crop wide_header tall_image) as [[h' d']|e] eqn:Hcrop.
  - rewrite bind_done. f_equal.
    apply (center_crop_reference_pixel wide_header h' tall_image d' 5 4 2 5 3 Hcrop);
      try reflexivity; try lia.
    + apply (bool_decide_unpack _). vm_compute. exact I.
    + change (len tall_image) with 10. lia.
  - exfalso. revert Hcrop. vm_compute. discriminate.
Defined.

Lemma crop_frac_below_3 : crop_frac 0 = Done 0 /\ crop_frac 1 = Done 0 /\ crop_frac 2 = Done 0.
Proof. repeat split; vm_compute; reflexivity. Qed.

(** X11. A frame of fewer than three rows loses every pixel in the center
    crop: the offset [int(rows/2.5)] is 0, and the slice [0:-0] of line
    151 is empty. *)
Theorem center_crop_small_frame_is_emptied (h h' : header) (d d' : image) :
  (length d < 3)%nat -> center_crop h d = Done (h', d') -> d' = [].
Proof.
  intros Hlen Hcrop. destruct crop_frac_below_3 as (H0 & H1 & H2).
  unfold center_crop in Hcrop.
  assert (Hfrac : crop_frac (shape d).1 = Done 0).
  { destruct d as [|r1 [|r2 [|r3 [|r4 d]]]]; cbn in Hlen; try lia; assumption. }
  destruct (shape d) as [shape0 shape1]. cbn [fst] in Hfrac.
  rewrite Hfrac, bind_done in Hcrop.
  bind_inv Hcrop as y_frac Hy. bind_inv Hcrop as crpix1 Hc1.
  bind_inv Hcrop as crpix1' Hc1'. bind_inv Hcrop as crpix2 Hc2.
  bind_inv Hcrop as crpix2' Hc2'. injection Hcrop as _ <-.
  unfold crop_data, py_slice. cbn. rewrite Z.sub_diag. reflexivity.
Qed.

Lemma center_crop_small_frame_is_emptied_witness :
  (res ← center_crop wide_header (take 2 wide_image); Done res.2) = Done [].
Proof.
  destruct (center_crop wide_header (take 2 wide_image)) as [[h' d']|e] eqn:Hcrop.
  - rewrite bind_done. f_equal.
    apply (center_crop_small_frame_is_emptied wide_header h' (take 2 wide_image) d');
      [change (length (take 2 wide_image)) with 2%nat; lia|exact Hcrop].
  - exfalso. revert Hcrop. vm_compute. discriminate.
Defined.

(** ** Date, overlay and reticle: what makes them fail *)

(** X12. A header with a DATE-OBS field is dated from that field alone:
    when neither format parses it, the render step raises, whatever
    DATE_OBS holds; and when the first format fails with anything but
    ValueError, the second format is not tried. *)
Theorem read_date_keeps_to_first_field (strptime : hval -> string -> result Z)
    (h : header) (v : hval) :
  h !! "DATE-OBS" = Some v ->
  (forall other, read_date strptime (<["DATE_OBS" := other]> h) = read_date strptime h)
  /\ (raises (strptime v fmt_fraction) -> raises (strptime v fmt_seconds) ->
      raises (read_date strptime h))
  /\ (forall e, strptime v fmt_fraction = Raise e -> e <> ValueError ->
      read_date strptime h = Raise e).
Proof.
  intros Hv. split; [|split].
  - intros other. rewrite !read_date_spec. unfold date_field.
    rewrite lookup_insert_ne, Hv by discriminate. reflexivity.
  - intros H1 H2. apply unparseable_raises. unfold unparseable, date_field.
    rewrite Hv. split; assumption.
  - intros e He Hne. rewrite read_date_spec. unfold date_field, parse_date.
    rewrite Hv, He. destruct e; try reflexivity. contradiction.
Qed.

Lemma read_date_keeps_to_first_field_witness :
  raises (read_date (strptime m42_library)
            {[ "DATE-OBS" := VStr "10/08/2018"; "DATE_OBS" := VStr "2018-08-10T01:02:03.5" ]}).
Proof.
  apply (read_date_keeps_to_first_field (strptime m42_library)
           {[ "DATE-OBS" := VStr "10/08/2018"; "DATE_OBS" := VStr "2018-08-10T01:02:03.5" ]}
           (VStr "10/08/2018")).
  - reflexivity.
  - exists ValueError. reflexivity.
  - exists ValueError. reflexivity.
Defined.

(** Runs one call of the block in a goal about [overlay]. *)
Ltac overlay_step outcome c :=
  let ex := fresh "ex" in
  let Hc := fresh "Hc" in
  let Hd := fresh "Hd" in
  let Hall := fresh "Hall" in
  destruct (outcome c) as [ex|] eqn:Hc;
  [ cbn; destruct ex; cbn; intros Hd; try discriminate Hd; injection Hd as <-;
    (split;
     [ split; [cbn; discriminate | intros Hall; specialize (Hall c); congruence]
     | cbn; discriminate ])
  | ].

(** X13. The overlay step attaches the grid exactly when every call of
    the block returns; it then made all thirteen calls, in order. *)
Theorem grid_attached_iff_all_calls_return (outcome : wcs_call -> option exn)
    (made : list wcs_call) :
  overlay outcome = Done made ->
  (grid_attached made = true <-> forall c, outcome c = None)
  /\ (grid_attached made = true -> made = overlay_block).
Proof.
  unfold overlay, overlay_block. cbn [run_calls app].
  overlay_step outcome MakeWCS.
  overlay_step outcome GcaProjection.
  overlay_step outcome CoordsDec.
  overlay_step outcome DecMajorFormatter.
  overlay_step outcome DecTicksPosition.
  overlay_step outcome DecTicklabelPosition.
  overlay_step outcome DecTicklabel.
  overlay_step outcome CoordsRa.
  overlay_step outcome RaMajorFormatter.
  overlay_step outcome RaTicksPosition.
  overlay_step outcome RaTicklabelPosition.
  overlay_step outcome RaTicklabel.
  overlay_step outcome CoordsGrid.
  intros [= <-]. split; [|reflexivity].
  split; [|reflexivity]. intros _ c. destruct c; assumption.
Qed.

Lemma grid_attached_iff_all_calls_return_witness :
  grid_attached overlay_block = true <-> forall c : wcs_call, (fun _ => None) c = @None exn.
Proof.
  apply (grid_attached_iff_all_calls_return (fun _ => None) overlay_block). reflexivity.
Defined.

(** X14. The reticle needs the reference pixel and a pixel scale: without
    CRPIX1, CRPIX2 or PIXSCALE in the header it raises KeyError, with a
    pixel scale of 0 it raises ZeroDivisionError, and when it returns it
    gives two circles, both centred on the reference pixel. *)
Theorem reticle_needs_reference_and_scale (h : header) :
  (h !! "CRPIX1" = None \/ h !! "CRPIX2" = None \/ h !! "PIXSCALE" = None ->
   reticle h = Raise KeyError)
  /\ (is_Some (h !! "CRPIX1") -> is_Some (h !! "CRPIX2") ->
      h !! "PIXSCALE" = Some (VInt 0) -> reticle h = Raise ZeroDivisionError)
  /\ (forall circles, reticle h = Done circles ->
      exists x y r5 r15,
        h !! "CRPIX1" = Some x /\ h !! "CRPIX2" = Some y
        /\ circles = [Circle x y r5 "limegreen"; Circle x y r15 "lime"]).
Proof.
  unfold reticle, header_get. split; [|split].
  - intros H.
    destruct (h !! "CRPIX1") as [x|]; [|reflexivity].
    destruct (h !! "CRPIX2") as [y|]; [|reflexivity].
    destruct (h !! "PIXSCALE") as [s|]; [|reflexivity].
    destruct H as [H|[H|H]]; discriminate.
  - intros [x ->] [y ->] ->. reflexivity.
  - intros circles H.
    destruct (h !! "CRPIX1") as [x|]; [|discriminate].
    destruct (h !! "CRPIX2") as [y|]; [|discriminate].
    destruct (h !! "PIXSCALE") as [s|]; [|discriminate].
    rewrite !bind_done in H. bind_inv H as r5 H5. rewrite !bind_done in H.
    bind_inv H as r15 H15. injection H as <-.
    exists x, y, r5, r15. auto.
Qed.

Lemma reticle_needs_reference_and_scale_witness :
  reticle wide_header = Raise KeyError
  /\ reticle (<["PIXSCALE" := VInt 0]> wide_header) = Raise ZeroDivisionError.
Proof.
  split.
  - apply (reticle_needs_reference_and_scale wide_header). right; right. reflexivity.
  - apply (reticle_needs_reference_and_scale (<["PIXSCALE" := VInt 0]> wide_header)).
    + exists (VInt 5). reflexivity.
    + exists (VInt 3). reflexivity.
    + reflexivity.
Defined.

(** ** The run, from the frame list to the GIF *)

(** X15. Two runs end before any file is opened, whatever the files hold:
    an empty frame list raises IndexError (line 80), and a base interval
    of 0 with a positive intro interval and more than five frames raises
    ZeroDivisionError (line 85). *)
Theorem make_gif_fails_before_reading (lib : library) (cfg : config)
    (frames : list string) :
  (frames = [] -> make_gif lib cfg frames = Raise IndexError)
  /\ (forall ifr, fr cfg = 0 -> init_fr cfg = Some ifr -> 0 < ifr ->
      (5 < length frames)%nat -> make_gif lib cfg frames = Raise ZeroDivisionError).
Proof.
  split.
  - intros ->. reflexivity.
  - intros ifr Hfr Hifr Hpos Hlen. unfold make_gif.
    destruct frames as [|frame0 frames]; [cbn in Hlen; lia|].
    change (getitem (frame0 :: frames) 0) with (Done frame0). rewrite bind_done.
    assert (Hpad : pad_frames (if sort cfg then np_sort (frame0 :: frames)
                               else frame0 :: frames) (fr cfg) (init_fr cfg)
                   = Raise ZeroDivisionError).
    { rewrite Hfr, Hifr. apply pad_frames_zero_interval; [|exact Hpos].
      destruct (sort cfg); [rewrite np_sort_length|]; exact Hlen. }
    rewrite Hpad. reflexivity.
Qed.

Lemma make_gif_fails_before_reading_witness :
  make_gif m42_library (Config None true 0 (Some 1000) false false false) six_frames
  = Raise ZeroDivisionError.
Proof.
  destruct (make_gif_fails_before_reading m42_library
              (Config None true 0 (Some 1000) false false false) six_frames)
    as [_ H].
  apply (H 1000); try reflexivity; try lia. cbn. lia.
Defined.

(** [make_gif] once the first file is open and its header chosen. *)
Lemma make_gif_opened (lib : library) (cfg : config) (frames padded : list string)
    (frame0 file0 : string) (copies : Z) (hdul : list hdu) (h : header) :
  getitem frames 0 = Done frame0 ->
  pad_frames (if sort cfg then np_sort frames else frames) (fr cfg) (init_fr cfg)
    = Done (copies, padded) ->
  getitem padded 0 = Done file0 ->
  fits_open lib file0 = Done hdul ->
  select_header hdul = Done h ->
  make_gif lib cfg frames
  = (obj ← header_get h "OBJECT";
     rn ← request_number h;
     site ← upper_or_blank h "SITEID";
     inst ← upper_or_blank h "INSTRUME";
     '(ax1, printed1) ← update lib cfg padded copies (clock lib 0) 0 (clock lib 1);
     name ← str_method (fun o => gif_name o rn) obj;
     '(frames_drawn, printed) ←
       save_frames lib cfg padded copies (clock lib 0) (seq 0 (length padded));
     Done (Gif (path_join (lstrip " " (dirname frame0)) name)
             match title cfg with
             | None => Some default_title
             | Some "" => None
             | Some t => Some t
             end frames_drawn, printed1 ++ printed)).
Proof.
  intros Hframe0 Hpad Hfile0 Hopen Hsel. unfold make_gif.
  rewrite Hframe0, bind_done, Hpad, bind_done. cbv beta iota.
  rewrite Hfile0, bind_done, Hopen, bind_done, Hsel, bind_done. reflexivity.
Qed.

Lemma upper_or_blank_cases (h : header) (key : string) :
  upper_or_blank h key
  = match h !! key with
    | Some (VStr s) => Done (upper s)
    | Some _ => Raise AttributeError
    | None => Done " "
    end.
Proof.
  unfold upper_or_blank, header_get. destruct (h !! key) as [[s| |]|]; reflexivity.
Qed.

(** X16. The header of the first frame must name the object, and its
    site and instrument codes, though never used, must be strings: a
    header without OBJECT raises KeyError, and one whose SITEID or
    INSTRUME is a number raises AttributeError, before any frame is
    rendered. *)
Theorem make_gif_first_header_failures (lib : library) (cfg : config)
    (frames padded : list string) (frame0 file0 : string) (copies : Z)
    (hdul : list hdu) (h : header) :
  getitem frames 0 = Done frame0 ->
  pad_frames (if sort cfg then np_sort frames else frames) (fr cfg) (init_fr cfg)
    = Done (copies, padded) ->
  getitem padded 0 = Done file0 ->
  fits_open lib file0 = Done hdul ->
  select_header hdul = Done h ->
  (h !! "OBJECT" = None -> make_gif lib cfg frames = Raise KeyError)
  /\ (forall key z rn,
        key = "SITEID" \/ key = "INSTRUME" ->
        is_Some (h !! "OBJECT") -> request_number h = Done rn ->
        h !! key = Some (VInt z) ->
        make_gif lib cfg frames = Raise AttributeError).
Proof.
  intros Hframe0 Hpad Hfile0 Hopen Hsel.
  rewrite (make_gif_opened _ _ _ _ _ _ _ _ _ Hframe0 Hpad Hfile0 Hopen Hsel).
  split.
  - intros Hobj. unfold header_get. rewrite Hobj. reflexivity.
  - intros key z rn Hkey [obj Hobj] Hrn Hz. unfold header_get at 1.
    rewrite Hobj, bind_done, Hrn, bind_done.
    rewrite !upper_or_blank_cases. destruct Hkey as [-> | ->].
    + rewrite Hz. reflexivity.
    + rewrite Hz. destruct (h !! "SITEID") as [[s| |]|]; reflexivity.
Qed.

Lemma make_gif_first_header_failures_witness :
  make_gif undated_library quiet six_frames = Raise KeyError.
Proof.
  destruct (make_gif_first_header_failures undated_library quiet six_frames
              (padded_spec 10 six_frames) "g0.fits" "g0.fits" 10
              [HDU "PRIMARY" wide_header wide_image] wide_header) as [H _];
    [reflexivity..|].
  apply H. reflexivity.
Defined.

Lemma save_frames_drawn (lib : library) (cfg : config) (fits_files : list string)
    (copies time_in : Z) (indices : list nat) :
  forall drawn printed,
  save_frames lib cfg fits_files copies time_in indices = Done (drawn, printed) ->
  length drawn = length indices
  /\ forall i n ax, indices !! i = Some n -> drawn !! i = Some ax ->
       exists out, update lib cfg fits_files copies time_in (Z.of_nat n)
                     (clock lib (n + 2)) = Done (ax, out).
Proof.
  induction indices as [|n indices IH]; intros drawn printed H.
  - injection H as <- _. split; [reflexivity|]. intros i m ax Hi. inversion Hi.
  - cbn [save_frames] in H.
    bind_inv H as [ax0 out0] Hn. bind_inv H as [rest out] Hrest.
    injection H as <- _. destruct (IH _ _ Hrest) as [Hlen Hall].
    split; [cbn [length]; rewrite Hlen; reflexivity|].
    intros [|i] m ax Hi Hax; cbn in Hi, Hax.
    + injection Hi as <-. injection Hax as <-. exists out0. exact Hn.
    + exact (Hall i m ax Hi Hax).
Qed.

Lemma title_total_padded (l padded : list string) (fr copies : Z)
    (init_fr : option Z) :
  0 < fr -> pad_frames l fr init_fr = Done (copies, padded) ->
  title_total padded copies = len l.
Proof.
  intros Hfr H.
  destruct (pad_frames_cases l fr init_fr)
    as [[_ H']|[(c & H' & Hc)|(c & Hc & _ & Hlen & H')]]; rewrite H' in H.
  - discriminate.
  - injection H as <- <-. destruct Hc as [->|[_ ?]]; [|lia].
    unfold title_total. lia.
  - injection H as <- <-. unfold title_total, start_frames, len.
    replace (Z.to_nat c) with (S (Z.to_nat (c - 1))) by lia.
    rewrite padded_spec_length by (unfold len in Hlen; lia). lia.
Qed.

(** X17. A completed run has rendered one frame per place of the padded
    sequence, in order, each by the render step of its place; with a
    positive base interval every title ends with the number of input
    frames. *)
Theorem make_gif_renders_every_place (lib : library) (cfg : config)
    (frames : list string) (g : gif) (out : string) :
  make_gif lib cfg frames = Done (g, out) ->
  exists copies padded,
    pad_frames (if sort cfg then np_sort frames else frames) (fr cfg) (init_fr cfg)
      = Done (copies, padded)
    /\ length (gif_frames g) = length padded
    /\ (length frames <= length (gif_frames g))%nat
    /\ forall p ax,
         gif_frames g !! p = Some ax ->
         (exists printed,
            update lib cfg padded copies (clock lib 0) (Z.of_nat p) (clock lib (p + 2))
            = Done (ax, printed))
         /\ (0 < fr cfg ->
             exists date,
               ax_title ax
               = "UT Date: " ++ strftime lib date "%x %X" ++ " ("
                   ++ str_of_int (current_count padded (Z.of_nat p))
                   ++ " of " ++ str_of_int (len frames) ++ ")").
Proof.
  unfold make_gif. intros H.
  bind_inv H as frame0 Hframe0.
  bind_inv H as [copies padded] Hpad.
  bind_inv H as file0 Hfile0.
  bind_inv H as hdul Hopen.
  bind_inv H as h Hsel.
  bind_inv H as obj Hobj.
  bind_inv H as rn Hrn.
  bind_inv H as site Hsite.
  bind_inv H as inst Hinst.
  bind_inv H as [ax1 printed1] Hupdate.
  bind_inv H as name Hname.
  bind_inv H as [drawn printed] Hsave.
  injection H as <- _. cbn [gif_frames].
  destruct (save_frames_drawn _ _ _ _ _ _ _ _ Hsave) as [Hlen Hall].
  rewrite length_seq in Hlen.
  assert (Hsorted : length (if sort cfg then np_sort frames else frames)
                    = length frames).
  { destruct (sort cfg); [apply np_sort_length|reflexivity]. }
  exists copies, padded. split; [exact Hpad|]. split; [exact Hlen|]. split.
  { rewrite Hlen, <- Hsorted. apply sublist_length.
    destruct (pad_frames_cases (if sort cfg then np_sort frames else frames)
                (fr cfg) (init_fr cfg))
      as [[_ H']|[(c & H' & _)|(c & Hc & _ & _ & H')]]; rewrite H' in Hpad.
    - discriminate.
    - injection Hpad as _ <-. reflexivity.
    - injection Hpad as _ <-.
      replace (Z.to_nat c) with (S (Z.to_nat (c - 1))) by lia.
      unfold padded_spec.
      rewrite <- (take_drop 5 (if sort cfg then np_sort frames else frames)) at 1.
      apply sublist_app; [apply flat_map_replicate_sublist|reflexivity]. }
  intros p ax Hax.
  assert (Hp : (p < length padded)%nat).
  { rewrite <- Hlen. apply (lookup_lt_Some _ _ _ Hax). }
  destruct (Hall p p ax) as [printed' Hupd];
    [apply lookup_seq; lia|exact Hax|].
  split; [exists printed'; exact Hupd|]. intros Hfr.
  apply update_done_inv in Hupd
    as (file & hdul' & h0 & d0 & h' & d & date & limits & made & artists
        & _ & _ & _ & _ & _ & _ & _ & _ & _ & ->).
  exists date. cbn [ax_title]. unfold frame_title.
  rewrite (title_total_padded _ _ _ _ _ Hfr Hpad).
  unfold len. rewrite Hsorted. reflexivity.
Qed.

Lemma make_gif_renders_every_place_witness :
  exists g out,
    make_gif m42_library quiet six_frames = Done (g, out)
    /\ length (gif_frames g) = 51%nat.
Proof.
  destruct (make_gif m42_library quiet six_frames) as [[g out]|e] eqn:Hrun.
  - exists g, out. split; [reflexivity|].
    destruct (make_gif_renders_every_place m42_library quiet six_frames g out Hrun)
      as (copies & padded & Hpad & Hlen & _).
    rewrite Hlen. revert Hpad. vm_compute. intros [= _ <-]. reflexivity.
  - exfalso. revert Hrun. vm_compute. discriminate.
Defined.

(** ** The output path and the command line *)

Lemma gif_name_is_relative (obj rn : string) : startswith_sep (gif_name obj rn) = false.
Proof.
  unfold gif_name. destruct obj as [|a obj]; [reflexivity|].
  cbn [replace]. change (String ?c ?s ++ ?t) with (String c (s ++ t)).
  cbn [startswith_sep].
  destruct (Ascii.eqb_spec a " ") as [->|Hblank]; [reflexivity|].
  destruct (Ascii.eqb_spec a "/") as [->|Hsep]; [reflexivity|].
  apply Ascii.eqb_neq. exact Hsep.
Qed.

Lemma replace_removes (a b : ascii) (s : string) :
  a <> b -> forall c, In c (list_ascii_of_string (replace a b s)) -> c <> a.
Proof.
  intros Hab. induction s as [|x s IH]; intros c Hc; [inversion Hc|].
  cbn [replace list_ascii_of_string] in Hc. destruct Hc as [<-|Hc]; [|auto].
  destruct (Ascii.eqb_spec x a); congruence.
Qed.

Lemma replace_keeps_absent (a b c : ascii) (s : string) :
  b <> c -> (forall x, In x (list_ascii_of_string s) -> x <> c) ->
  forall x, In x (list_ascii_of_string (replace a b s)) -> x <> c.
Proof.
  intros Hbc. induction s as [|y s IH]; intros Hs x Hx; [inversion Hx|].
  cbn [replace list_ascii_of_string] in Hx. destruct Hx as [<-|Hx].
  - destruct (Ascii.eqb_spec y a); [congruence|]. apply Hs. left. reflexivity.
  - apply IH; [|exact Hx]. intros z Hz. apply Hs. right. exact Hz.
Qed.

(** X18. The GIF of a completed run is written under the directory of
    the first input frame (leading blanks stripped): the file name starts
    with the object name, in which no blank and no slash is left, so it
    is never taken for an absolute path when the two are joined. *)
Theorem output_stays_in_directory (lib : library) (cfg : config)
    (frames : list string) (g : gif) (out : string) :
  make_gif lib cfg frames = Done (g, out) ->
  exists frame0 obj rn,
    head frames = Some frame0
    /\ gif_path g
       = lstrip " " (dirname frame0)
           ++ (if String.eqb (lstrip " " (dirname frame0)) ""
                  || endswith_sep (lstrip " " (dirname frame0))
               then "" else "/")
           ++ replace "/" "_" (replace " " "_" obj) ++ "_" ++ rn ++ "_guidemovie.gif"
    /\ forall c, In c (list_ascii_of_string (replace "/" "_" (replace " " "_" obj))) ->
         c <> "/"%char /\ c <> " "%char.
Proof.
  intros Hdone.
  apply make_gif_done_inv in Hdone
    as (frame0 & copies & padded & file0 & hdul & h & obj & rn & drawn & printed
        & Hf0 & _ & _ & _ & _ & _ & _ & _ & Hpath).
  exists frame0, obj, rn. split; [apply getitem_0; exact Hf0|]. split.
  - rewrite Hpath. unfold path_join. rewrite gif_name_is_relative.
    unfold gif_name.
    destruct (String.eqb (lstrip " " (dirname frame0)) ""
              || endswith_sep (lstrip " " (dirname frame0))); reflexivity.
  - intros c Hc. split.
    + apply (replace_removes "/" "_" (replace " " "_" obj)); [discriminate|exact Hc].
    + apply (replace_keeps_absent "/" "_" " " (replace " " "_" obj));
        [discriminate| |exact Hc].
      apply replace_removes. discriminate.
Qed.

Lemma output_stays_in_directory_witness :
  exists g out,
    make_gif m42_library quiet tmp_seq_frames = Done (g, out)
    /\ exists obj rn,
         gif_path g
         = "/tmp/seq" ++ "/" ++ replace "/" "_" (replace " " "_" obj) ++ "_" ++ rn
             ++ "_guidemovie.gif".
Proof.
  destruct (make_gif m42_library quiet tmp_seq_frames) as [[g out]|e] eqn:Hrun.
  - exists g, out. split; [reflexivity|].
    destruct (output_stays_in_directory m42_library quiet tmp_seq_frames g out Hrun)
      as (frame0 & obj & rn & H0 & Hpath & _).
    injection H0 as <-. exists obj, rn. exact Hpath.
  - exfalso. revert Hrun. vm_compute. discriminate.
Defined.

Lemma last_char_endswith (s : string) (a : ascii) :
  last_char s = Done a -> endswith_sep s = Ascii.eqb a "/".
Proof.
  induction s as [|x s IH]; [discriminate|].
  destruct s as [|y s]; [intros [= ->]; reflexivity|]. exact IH.
Qed.

Lemma last_char_nonempty (s : string) : s <> "" -> exists a, last_char s = Done a.
Proof.
  induction s as [|x s IH]; [contradiction|]. intros _.
  destruct s as [|y s]; [exists x; reflexivity|]. apply IH. discriminate.
Qed.

Lemma len_np_sort_empty (l : list string) : (len (np_sort l) <? 1) = true <-> l = [].
Proof.
  unfold len. rewrite np_sort_length. destruct l; cbn [length]; split; intros H;
    try reflexivity; try discriminate.
  apply Z.ltb_lt in H. lia.
Qed.

(** X19. The command line looks in the directory given, with a slash
    added when it does not end with one: the compressed frames, with the
    ending .fits.fz, when there are any, else those with the ending .fits,
    sorted.
    With neither it prints that no files were found and returns without
    opening anything; an empty directory argument raises IndexError. *)
Theorem main_selects_frames (lib : library) (glob : string -> list string)
    (show : Z -> string) (args : arguments) :
  (arg_path args = "" -> main lib glob show args = Raise IndexError)
  /\ (arg_path args <> "" ->
      forall dir,
      dir = (if endswith_sep (arg_path args) then arg_path args
             else arg_path args ++ "/") ->
      (glob (dir ++ "*.fits.fz") = [] -> glob (dir ++ "*.fits") = [] ->
       main lib glob show args
       = Done (("Base Framerate: " ++ show (arg_fr args) ++ nl)
                 ++ "No files found." ++ nl))
      /\ (forall files,
          files = (if bool_decide (glob (dir ++ "*.fits.fz") = [])
                   then glob (dir ++ "*.fits") else glob (dir ++ "*.fits.fz")) ->
          files <> [] ->
          main lib glob show args
          = ('(g, printed) ← make_gif lib (main_config args) (np_sort files);
             Done (("Base Framerate: " ++ show (arg_fr args) ++ nl) ++ printed
                     ++ "New gif created: " ++ gif_path g ++ nl)))).
Proof.
  split.
  - intros Hpath. unfold main. rewrite Hpath. reflexivity.
  - intros Hpath dir Hdir. unfold main.
    destruct (last_char_nonempty _ Hpath) as [a Ha]. rewrite Ha, bind_done.
    rewrite (last_char_endswith _ _ Ha) in Hdir.
    assert (Hd : (if negb (Ascii.eqb a "/") then arg_path args ++ "/"
                  else arg_path args) = dir).
    { rewrite Hdir. destruct (Ascii.eqb a "/"); reflexivity. }
    rewrite Hd. cbv zeta. split.
    + intros Hfz Hfits. rewrite Hfz, Hfits. reflexivity.
    + intros files Hfiles Hne.
      destruct (decide (glob (dir ++ "*.fits.fz") = [])) as [Hfz|Hfz].
      * rewrite bool_decide_eq_true_2 in Hfiles by exact Hfz. subst files.
        rewrite Hfz. change (len (np_sort []) <? 1) with true. cbv iota.
        destruct (1 <=? len (np_sort (glob (dir ++ "*.fits")))) eqn:Hlen;
          [reflexivity|].
        exfalso. apply Z.leb_gt, Z.ltb_lt, len_np_sort_empty in Hlen. contradiction.
      * rewrite bool_decide_eq_false_2 in Hfiles by exact Hfz. subst files.
        destruct (len (np_sort (glob (dir ++ "*.fits.fz"))) <? 1) eqn:Hlt.
        { apply len_np_sort_empty in Hlt. contradiction. }
        destruct (1 <=? len (np_sort (glob (dir ++ "*.fits.fz")))) eqn:Hlen;
          [reflexivity|].
        exfalso. apply Z.leb_gt, Z.ltb_lt in Hlen. congruence.
Qed.

Lemma main_selects_frames_witness :
  main m42_library (fun _ => []) str_of_int (Args "/tmp/seq" 100 1000 false false)
  = Done (("Base Framerate: " ++ str_of_int 100 ++ nl) ++ "No files found." ++ nl).
Proof.
  destruct (main_selects_frames m42_library (fun _ => []) str_of_int
              (Args "/tmp/seq" 100 1000 false false)) as [_ H].
  destruct (H ltac:(discriminate) "/tmp/seq/" eq_refl) as [Hnone _].
  apply Hnone; reflexivity.
Defined.

(** ** Sorting *)

Lemma sort_insert_sorted (x : string) (l : list string) :
  Sorted (fun a b => String.leb a b = true) l ->
  Sorted (fun a b => String.leb a b = true) (sort_insert x l).
Proof.
  induction l as [|y l IH]; intros Hl; cbn [sort_insert].
  - repeat constructor.
  - destruct (String.leb x y) eqn:Hxy.
    + constructor; [exact Hl|]. constructor. exact Hxy.
    + apply Sorted_inv in Hl as [Hl Hhd]. constructor; [apply IH; exact Hl|].
      assert (Hyx : String.leb y x = true).
      { destruct (String.leb_total x y) as [H|H]; [congruence|exact H]. }
      destruct l as [|z l]; cbn [sort_insert]; [constructor; exact Hyx|].
      destruct (String.leb x z); constructor; [exact Hyx|].
      apply HdRel_inv in Hhd. exact Hhd.
Qed.

Lemma sort_insert_head (x : string) (l : list string) :
  HdRel (fun a b => String.leb a b = true) x l -> sort_insert x l = x :: l.
Proof.
  destruct l as [|y l]; [reflexivity|]. intros H. apply HdRel_inv in H.
  cbn [sort_insert]. rewrite H. reflexivity.
Qed.

Lemma np_sort_of_sorted (l : list string) :
  Sorted (fun a b => String.leb a b = true) l -> np_sort l = l.
Proof.
  induction 1 as [|x l Hl IH Hhd]; [reflexivity|].
  cbn [np_sort foldr]. fold (np_sort l). rewrite IH. apply sort_insert_head. exact Hhd.
Qed.

Lemma sort_insert_perm (x : string) (l : list string) : sort_insert x l ≡ₚ x :: l.
Proof.
  induction l as [|y l IH]; [reflexivity|]. cbn [sort_insert].
  destruct (String.leb x y); [reflexivity|]. rewrite IH. apply Permutation_swap.
Qed.

(** X20. Sorting the frames (line 77) gives the same paths, each as often
    as before, in ascending order; a list that is in order already stays
    as it is, so the frames of the command line, sorted on line 238 or
    240, are not moved when [make_gif] sorts them again. *)
Theorem np_sort_sorts (l : list string) :
  np_sort l ≡ₚ l
  /\ Sorted (fun a b => String.leb a b = true) (np_sort l)
  /\ np_sort (np_sort l) = np_sort l.
Proof.
  assert (Hsorted : Sorted (fun a b => String.leb a b = true) (np_sort l)).
  { induction l as [|x l IH]; [constructor|].
    cbn [np_sort foldr]. apply sort_insert_sorted. exact IH. }
  split; [|split; [exact Hsorted|apply np_sort_of_sorted; exact Hsorted]].
  clear Hsorted. induction l as [|x l IH]; [reflexivity|].
  cbn [np_sort foldr]. fold (np_sort l). rewrite sort_insert_perm, IH. reflexivity.
Qed.

Lemma lstrip_splits (c : ascii) (s : string) :
  exists n : nat,
    s = Nat.iter n (String c) (lstrip c s)
    /\ match lstrip c s with
       | String a _ => a <> c
       | EmptyString => True
       end.
Proof.
  induction s as [|a s (n & Hs & Hhead)].
  - exists 0%nat. split; [reflexivity|exact I].
  - cbn [lstrip]. destruct (Ascii.eqb_spec a c) as [->|Hne].
    + exists (S n). split; [|exact Hhead].
      change (Nat.iter (S n) (String c) (lstrip c s))
        with (String c (Nat.iter n (String c) (lstrip c s))).
      rewrite <- Hs. reflexivity.
    + exists 0%nat. split; [reflexivity|exact Hne].
Qed.

(** X21. The request number in the file name is the REQNUM field without
    its leading zeros, all of them and nothing else: the field is a run
    of zeros followed by the request number, which does not start with a
    zero (and is empty for a field of zeros only). *)
Theorem request_number_strips_zeros (h : header) (s rn : string) :
  h !! "REQNUM" = Some (VStr s) -> request_number h = Done rn ->
  (exists n : nat, s = Nat.iter n (String "0") rn)
  /\ match rn with
     | String a _ => a <> "0"%char
     | EmptyString => True
     end.
Proof.
  intros Hs. unfold request_number, header_get. rewrite Hs. cbn.
  intros [= <-]. destruct (lstrip_splits "0" s) as (n & Hn & Hhead).
  split; [exists n; exact Hn|exact Hhead].
Qed.

Lemma request_number_strips_zeros_witness :
  exists n : nat, "0042" = Nat.iter n (String "0") "42".
Proof.
  apply (request_number_strips_zeros m42_header "0042" "42"); reflexivity.
Defined.
